(** * State synchronisation of the network operator

    A shallow embedding of package [state]: the HostDeviceNetwork state
    (pkg/state/state_hostdevice_network.go) and the SR-IOV device plugin
    state, with the collaborators they talk to (renderer, info catalog,
    cluster client) and the properties of their [Sync] methods.

    Conventions.
    - A Go [error] value is [option err]; [None] is Go's [nil].
    - A Go pointer that may be nil is an [option].
    - An [interface{}] argument is a [dynval]: a dynamic type with its value.
    - Calls that leave the process are recorded, in order, in the [calls]
      log of the [World]; the cluster content is the [cluster] map.
    - Rendered objects are passed by value.  The copy stamped by the
      mutation hook is the one written to the cluster; later reads address
      an object by its kind, namespace and name.
    - Logging has no effect on the world; evaluating the arguments of the
      first log call dereferences the custom resource. *)

From stdpp Require Import gmap strings list.

Open Scope string_scope.
Open Scope list_scope.

(** ** Errors (github.com/pkg/errors) *)

Inductive err : Type :=
| ErrNew (msg : string)
| ErrWrap (cause : err) (msg : string).

Definition error : Type := option err.

(** [errors.New]. *)
Definition errors_New (msg : string) : error := Some (ErrNew msg).

(** [errors.Wrap]: annotates [e] with [msg]; if [e] is nil, Wrap returns nil. *)
Definition errors_Wrap (e : error) (msg : string) : error :=
  match e with
  | None => None
  | Some cause => Some (ErrWrap cause msg)
  end.

(** The test [e != nil]. *)
Definition notNil (e : error) : bool :=
  match e with
  | Some _ => true
  | None => false
  end.

(** ** Verdicts

    The declaration of [SyncState] is in another file of the package; the
    members are those the specification lists. *)

Inductive SyncState : Type :=
| SyncStateReady
| SyncStateNotReady
| SyncStateIgnore
| SyncStateError.

(** ** Custom resources (api/v1alpha1)

    The declarations are not part of the two source files; the records
    carry the fields that the states read, pointers as options. *)

Record ObjectMeta : Type := {
  Name : string;
  Namespace : string;
  UID : string
}.

Record HostDeviceNetworkSpec : Type := {
  NetworkNamespace : string;
  ResourceName : string;
  IPAM : string
}.

Record HostDeviceNetwork : Type := {
  hdnMeta : ObjectMeta;
  hdnSpec : HostDeviceNetworkSpec
}.

Inductive DevicePluginSpec : Type := MkDevicePluginSpec (content : string).
Inductive OFEDDriverSpec : Type := MkOFEDDriverSpec (content : string).
Inductive NodeAffinity : Type := MkNodeAffinity (content : string).

Record NicClusterPolicySpec : Type := {
  NodeAffinityField : option NodeAffinity;
  OFEDDriver : option OFEDDriverSpec;
  SriovDevicePlugin : option DevicePluginSpec
}.

Record NicClusterPolicy : Type := {
  ncpMeta : ObjectMeta;
  ncpSpec : NicClusterPolicySpec
}.

(** The dynamic value behind a [customResource interface{}] argument. *)
Inductive dynval : Type :=
| DynNil
| DynHostDeviceNetwork (p : option HostDeviceNetwork)
| DynNicClusterPolicy (p : option NicClusterPolicy)
| DynOther (typeName : string).

(** ** Structured objects (unstructured.Unstructured) *)

Record OwnerReference : Type := {
  refKind : string;
  refName : string;
  refUID : string;
  refController : bool
}.

Record ObjStatus : Type := {
  desiredNumberScheduled : nat;
  numberReady : nat;
  terminalError : bool
}.

Record Unstructured : Type := {
  uKind : string;
  uNamespace : string;
  uName : string;
  uOwnerReferences : list OwnerReference;
  uSpec : string;
  uStatus : ObjStatus
}.

Definition GetKind (o : Unstructured) : string := uKind o.

(** Kind, namespace and name: the identity of an object in the cluster. *)
Definition ObjKey : Type := string * string * string.

Definition keyOf (o : Unstructured) : ObjKey := (uKind o, uNamespace o, uName o).

#[global] Instance OwnerReference_eq_dec : EqDecision OwnerReference.
Proof. solve_decision. Defined.

(** ** Render data *)

Record runtimeSpec : Type := { rsNamespace : string }.

Record HostDeviceManifestRenderData : Type := {
  HostDeviceNetworkName : string;
  hdCrSpec : HostDeviceNetworkSpec;
  hdRuntimeSpec : runtimeSpec;
  hdResourceName : string
}.

Record sriovDpRuntimeSpec : Type := {
  dpRuntimeSpec : runtimeSpec;
  CPUArch : string;
  OSName : string
}.

Record sriovDpManifestRenderData : Type := {
  dpCrSpec : option DevicePluginSpec;
  dpNodeAffinity : option NodeAffinity;
  DeployInitContainer : bool;
  dpRuntime : sriovDpRuntimeSpec
}.

(** [render.TemplatingData]: the [Data interface{}] field holds one of the
    two render-data structures. *)
Inductive TemplatingData : Type :=
| DataHostDevice (d : HostDeviceManifestRenderData)
| DataSriovDp (d : sriovDpManifestRenderData).

(** ** Node information (pkg/nodeinfo)

    The declarations are not part of the two source files.  A node-attribute
    record carries a map from attribute type to value; the states read the
    OS name only. *)

Inductive AttributeType : Type :=
| AttrTypeHostname
| AttrTypeCPUArch
| AttrTypeOSName.

#[global] Instance AttributeType_eq_dec : EqDecision AttributeType.
Proof. solve_decision. Defined.

#[global] Instance AttributeType_countable : Countable AttributeType.
Proof.
  refine (inj_countable'
    (fun a => match a with
              | AttrTypeHostname => 0 | AttrTypeCPUArch => 1 | AttrTypeOSName => 2
              end)
    (fun n => match n with
              | 0 => AttrTypeHostname | 1 => AttrTypeCPUArch | _ => AttrTypeOSName
              end) _).
  by intros [].
Defined.

Record NodeAttributes : Type := {
  naName : string;
  Attributes : gmap AttributeType string
}.

(** Reading a Go map: a missing key yields the zero value of the element type. *)
Definition mapIndex (m : gmap AttributeType string) (k : AttributeType) : string :=
  default "" (m !! k).

(** A node-label filter: the label values a node must carry. *)
Definition Filter : Type := gmap string string.

(** The name of the node label is declared in pkg/nodeinfo; nothing below
    depends on its value. *)
Definition NodeLabelMlnxNIC : string := "feature.node.kubernetes.io/pci-15b3.present".

Definition NewNodeLabelFilterBuilder : Filter := ∅.
Definition WithLabel (key val : string) (b : Filter) : Filter := <[key:=val]> b.
Definition Build (b : Filter) : Filter := b.

(** [nodeinfo.Provider] and [InfoCatalog] are interfaces: any implementation
    is a function answering the query. *)
Record Provider : Type := {
  nodesAttributes : list Filter -> list NodeAttributes
}.

Record InfoCatalog : Type := {
  nodeInfoProvider : option Provider
}.

(** ** The world outside the process *)

Inductive Call : Type :=
| CallGetNodeInfoProvider
| CallGetNodesAttributes (filters : list Filter)
| CallRenderObjects (data : TemplatingData)
| CallGet (key : ObjKey)
| CallCreate (obj : Unstructured)
| CallUpdate (obj : Unstructured).

Record World : Type := {
  cluster : gmap ObjKey Unstructured;
  calls : list Call
}.

Definition record (c : Call) (w : World) : World :=
  {| cluster := cluster w; calls := calls w ++ [c] |}.

Definition setCluster (m : gmap ObjKey Unstructured) (w : World) : World :=
  {| cluster := m; calls := calls w |}.

(** A call is an apply when it writes an object to the cluster. *)
Definition isApply (c : Call) : bool :=
  match c with
  | CallCreate _ | CallUpdate _ => true
  | _ => false
  end.

Definition isRender (c : Call) : bool :=
  match c with
  | CallRenderObjects _ => true
  | _ => false
  end.

(** ** Collaborators held by a state *)

(** The renderer is a pure function from templating data to an ordered
    object list or a failure. *)
Record Renderer : Type := {
  renderObjects : TemplatingData -> list Unstructured * error
}.

(** The cluster API may reject any request, for reasons of its own. *)
Record Client : Type := {
  apiRejects : Call -> World -> error
}.

(** The kinds registered in a [runtime.Scheme]. *)
Record Scheme : Type := {
  knownKinds : list string
}.

Record stateSkel : Type := {
  name : string;
  description : string;
  client : Client;
  scheme : Scheme;
  renderer : Renderer
}.

(** The namespace constant is declared in pkg/consts; nothing below depends
    on its value. *)
Definition NetworkOperatorResourceNamespace : string := "nvidia-network-operator-resources".

(** ** Computations: state passing with panics *)

Inductive panic : Type :=
| PanicTypeAssertion (wanted : string)
| PanicNilDereference
| PanicIndexOutOfRange (i len : nat).

Inductive outcome (A : Type) : Type :=
| Returned (a : A)
| Panicked (p : panic).

Arguments Returned {A} a.
Arguments Panicked {A} p.

Definition Go (A : Type) : Type := World -> outcome A * World.

Definition ret {A : Type} (a : A) : Go A := fun w => (Returned a, w).

Definition bind {A B : Type} (m : Go A) (k : A -> Go B) : Go B :=
  fun w =>
    match m w with
    | (Returned a, w') => k a w'
    | (Panicked p, w') => (Panicked p, w')
    end.

Definition throw {A : Type} (p : panic) : Go A := fun w => (Panicked p, w).

(** A call to a collaborator, which returns. *)
Definition call {A : Type} (f : World -> A * World) : Go A :=
  fun w => let '(a, w') := f w in (Returned a, w').

Declare Scope go_scope.
Delimit Scope go_scope with go.
Notation "x <- m ;; k" := (bind m (fun x => k))
  (at level 100, m at next level, right associativity) : go_scope.

(** Dereference of a pointer. *)
Definition deref {A : Type} (p : option A) : Go A :=
  match p with
  | Some a => ret a
  | None => throw PanicNilDereference
  end.

(** The index expression [l[i]]. *)
Definition index {A : Type} (l : list A) (i : nat) : Go A :=
  match l !! i with
  | Some a => ret a
  | None => throw (PanicIndexOutOfRange i (length l))
  end.

(** The type assertion of a value to a pointer type, in its one-result
    form: it panics when the dynamic type differs. *)
Definition assertHostDeviceNetwork (v : dynval) : Go (option HostDeviceNetwork) :=
  match v with
  | DynHostDeviceNetwork p => ret p
  | _ => throw (PanicTypeAssertion "*v1alpha1.HostDeviceNetwork")
  end.

Definition assertNicClusterPolicy (v : dynval) : Go (option NicClusterPolicy) :=
  match v with
  | DynNicClusterPolicy p => ret p
  | _ => throw (PanicTypeAssertion "*v1alpha1.NicClusterPolicy")
  end.

(** ** Calls to the collaborators *)

(** [renderer.RenderObjects(data)]. *)
Definition RenderObjects (r : Renderer) (data : TemplatingData) (w : World)
  : (list Unstructured * error) * World :=
  (renderObjects r data, record (CallRenderObjects data) w).

(** [infoCatalog.GetNodeInfoProvider()]. *)
Definition GetNodeInfoProvider (c : InfoCatalog) (w : World) : option Provider * World :=
  (nodeInfoProvider c, record CallGetNodeInfoProvider w).

(** [nodeInfo.GetNodesAttributes(filters...)]. *)
Definition GetNodesAttributes (p : Provider) (filters : list Filter) (w : World)
  : list NodeAttributes * World :=
  (nodesAttributes p filters, record (CallGetNodesAttributes filters) w).

Inductive getResult : Type :=
| GetFound (live : Unstructured)
| GetNotFound
| GetFailed (e : err).

(** [client.Get]: the object stored under the key, or NotFound. *)
Definition Get (c : Client) (key : ObjKey) (w : World) : getResult * World :=
  let w' := record (CallGet key) w in
  match apiRejects c (CallGet key) w with
  | Some e => (GetFailed e, w')
  | None =>
    match cluster w !! key with
    | Some live => (GetFound live, w')
    | None => (GetNotFound, w')
    end
  end.

(** [client.Create]: stores a new object; an existing one is not replaced. *)
Definition Create (c : Client) (obj : Unstructured) (w : World) : error * World :=
  let w' := record (CallCreate obj) w in
  match apiRejects c (CallCreate obj) w with
  | Some e => (Some e, w')
  | None =>
    match cluster w !! keyOf obj with
    | Some _ => (errors_New "object already exists", w')
    | None => (None, setCluster (<[keyOf obj := obj]> (cluster w)) w')
    end
  end.

(** The fields a renderer owns are the owner references and the spec; the
    status of the live object is kept. *)
Definition merge (live desired : Unstructured) : Unstructured :=
  {| uKind := uKind live;
     uNamespace := uNamespace live;
     uName := uName live;
     uOwnerReferences := uOwnerReferences desired;
     uSpec := uSpec desired;
     uStatus := uStatus live |}.

(** [client.Update]: updates an existing object in place. *)
Definition Update (c : Client) (obj : Unstructured) (w : World) : error * World :=
  let w' := record (CallUpdate obj) w in
  match apiRejects c (CallUpdate obj) w with
  | Some e => (Some e, w')
  | None =>
    match cluster w !! keyOf obj with
    | Some live => (None, setCluster (<[keyOf obj := merge live obj]> (cluster w)) w')
    | None => (errors_New "object not found", w')
    end
  end.

(** ** Ownership stamping (controllerutil.SetControllerReference)

    After the contract of controller-runtime: the call fails when owner and
    object are in different namespaces, when the owner's kind is not
    registered in the scheme, or when the object is already controlled by
    another owner; otherwise the controller reference is set. *)

Inductive Owner : Type :=
| OwnerHostDeviceNetwork (cr : HostDeviceNetwork)
| OwnerNicClusterPolicy (cr : NicClusterPolicy).

Definition ownerKind (o : Owner) : string :=
  match o with
  | OwnerHostDeviceNetwork _ => "HostDeviceNetwork"
  | OwnerNicClusterPolicy _ => "NicClusterPolicy"
  end.

Definition ownerMeta (o : Owner) : ObjectMeta :=
  match o with
  | OwnerHostDeviceNetwork cr => hdnMeta cr
  | OwnerNicClusterPolicy cr => ncpMeta cr
  end.

Definition controllerRef (o : Owner) : OwnerReference :=
  {| refKind := ownerKind o;
     refName := Name (ownerMeta o);
     refUID := UID (ownerMeta o);
     refController := true |}.

Definition referSameObject (a b : OwnerReference) : bool :=
  String.eqb (refKind a) (refKind b) && String.eqb (refName a) (refName b).

Definition GetControllerOf (obj : Unstructured) : option OwnerReference :=
  List.find refController (uOwnerReferences obj).

Definition upsertOwnerRef (ref : OwnerReference) (obj : Unstructured) : Unstructured :=
  let refs := uOwnerReferences obj in
  {| uKind := uKind obj;
     uNamespace := uNamespace obj;
     uName := uName obj;
     uOwnerReferences :=
       if existsb (referSameObject ref) refs
       then map (fun r => if referSameObject ref r then ref else r) refs
       else refs ++ [ref];
     uSpec := uSpec obj;
     uStatus := uStatus obj |}.

Definition validateOwner (owner : Owner) (obj : Unstructured) : bool :=
  let ownerNs := Namespace (ownerMeta owner) in
  if String.eqb ownerNs "" then true else String.eqb ownerNs (uNamespace obj).

Definition SetControllerReference (owner : Owner) (obj : Unstructured) (sch : Scheme)
  : Unstructured * error :=
  if negb (validateOwner owner obj)
  then (obj, errors_New "cross-namespace owner references are disallowed")
  else if negb (existsb (String.eqb (ownerKind owner)) (knownKinds sch))
  then (obj, errors_New "no kind is registered for the owner type")
  else
    match GetControllerOf obj with
    | Some existing =>
      if referSameObject existing (controllerRef owner)
      then (upsertOwnerRef (controllerRef owner) obj, None)
      else (obj, errors_New "object is already owned by another controller")
    | None => (upsertOwnerRef (controllerRef owner) obj, None)
    end.

(** ** The methods of [stateSkel]

    [createOrUpdateObjs], [getSyncState] and [getObj] are methods of the
    embedded [stateSkel]; their code is not in the two source files.  A
    state is therefore given its skeleton methods as a record, so that what
    is proved about [Sync] holds for every implementation of them. *)

Record stateSkelMethods : Type := {
  createOrUpdateObjs :
    stateSkel -> (Unstructured -> Unstructured * error) -> list Unstructured ->
    World -> error * World;
  getSyncState : stateSkel -> list Unstructured -> World -> (SyncState * error) * World;
  getObj : stateSkel -> Unstructured -> World -> error * World
}.

(** Modelled from the spec: the body of [stateSkel.createOrUpdateObjs] is
    missing; this follows the Object Applier contract.  For each object, in
    the given order: the mutation hook is invoked, and if it fails the whole
    batch is aborted; the mutated object is updated in place when an object of
    the same kind, name and namespace exists in the cluster, otherwise it is
    created; application is sequential and stops at the first failure. *)
Fixpoint skelCreateOrUpdateObjs (s : stateSkel)
    (mutate : Unstructured -> Unstructured * error)
    (objs : list Unstructured) (w : World) : error * World :=
  match objs with
  | [] => (None, w)
  | obj :: rest =>
    let '(desired, err) := mutate obj in
    if notNil err then (err, w) else
    let '(found, w1) := Get (client s) (keyOf desired) w in
    let '(err, w2) :=
      match found with
      | GetFound _ => Update (client s) desired w1
      | GetNotFound => Create (client s) desired w1
      | GetFailed e => (Some e, w1)
      end in
    if notNil err then (err, w2) else skelCreateOrUpdateObjs s mutate rest w2
  end.

(** Modelled from the spec: the body of [stateSkel.getObj] is missing; it
    re-reads an object from the cluster, [Get(kindedReference)] giving the
    object or NotFound. *)
Definition skelGetObj (s : stateSkel) (obj : Unstructured) (w : World) : error * World :=
  let '(found, w') := Get (client s) (keyOf obj) w in
  match found with
  | GetFound _ => (None, w')
  | GetNotFound => (errors_New "object not found", w')
  | GetFailed e => (Some e, w')
  end.

Inductive health : Type := Healthy | Pending | Failed.

(** Modelled from the spec: the per-kind readiness predicates are missing.
    A DaemonSet is ready when its desired count equals its ready count;
    other kinds are ready once they exist; a terminal error condition wins. *)
Definition objectHealth (live : Unstructured) : health :=
  if terminalError (uStatus live) then Failed
  else if String.eqb (uKind live) "DaemonSet"
  then if Nat.eqb (desiredNumberScheduled (uStatus live)) (numberReady (uStatus live))
       then Healthy else Pending
  else Healthy.

(** Reads the live state of every object; a failing read stops the pass. *)
Fixpoint observe (s : stateSkel) (objs : list Unstructured) (w : World)
  : (list health * error) * World :=
  match objs with
  | [] => (([], None), w)
  | obj :: rest =>
    let '(found, w1) := Get (client s) (keyOf obj) w in
    match found with
    | GetFailed e => (([], Some e), w1)
    | GetNotFound =>
      let '((hs, err), w2) := observe s rest w1 in ((Pending :: hs, err), w2)
    | GetFound live =>
      let '((hs, err), w2) := observe s rest w1 in ((objectHealth live :: hs, err), w2)
    end
  end.

Definition isFailed (h : health) : bool :=
  match h with Failed => true | _ => false end.

Definition isHealthy (h : health) : bool :=
  match h with Healthy => true | _ => false end.

(** [Aggregate]: any error gives Error, all ready gives Ready, else NotReady. *)
Definition aggregate (hs : list health) : SyncState :=
  if existsb isFailed hs then SyncStateError
  else if forallb isHealthy hs then SyncStateReady
  else SyncStateNotReady.

(** Modelled from the spec: the body of [stateSkel.getSyncState] is missing;
    this follows the Status Aggregator contract over the live state of the
    objects, failing when a status read fails. *)
Definition skelGetSyncState (s : stateSkel) (objs : list Unstructured) (w : World)
  : (SyncState * error) * World :=
  let '((hs, err), w') := observe s objs w in
  if notNil err then ((SyncStateError, errors_Wrap err "failed to get object"), w')
  else ((aggregate hs, None), w').

Definition specSkel : stateSkelMethods :=
  {| createOrUpdateObjs := skelCreateOrUpdateObjs;
     getSyncState := skelGetSyncState;
     getObj := skelGetObj |}.

(** [strings.HasPrefix(s, prefix)]. *)
Definition strings_HasPrefix (s pre : string) : bool := String.prefix pre s.

(** A computation returns normally when it ends in a value, not in a panic. *)
Definition returnsNormally {A : Type} (r : outcome A * World) : Prop :=
  exists a, fst r = Returned a.

(** ** What the constructors and the watch lists use

    [utils.GetFilesWithSuffix], [render.ManifestFileSuffix] and
    [render.NewRenderer] belong to other packages; a constructor is given
    them as a record. *)
Record Manifests : Type := {
  GetFilesWithSuffix : string -> list string -> list string * error;
  ManifestFileSuffix : list string;
  NewRenderer : list string -> Renderer
}.

(** The object types a [source.Kind] of the two states points to. *)
Inductive watchedType : Type :=
| TypeHostDeviceNetwork
| TypeNetworkAttachmentDefinition
| TypeDaemonSet.

(** ** The HostDeviceNetwork state *)

Module stateHostDeviceNetwork.

Definition resourceNamePrefix : string := "nvidia.com/".

(** The render data built at the head of [getManifestObjects]. *)
Definition renderData (cr : HostDeviceNetwork) : HostDeviceManifestRenderData :=
  let resourceName := ResourceName (hdnSpec cr) in
  let resourceName :=
    if negb (strings_HasPrefix resourceName resourceNamePrefix)
    then resourceNamePrefix +:+ resourceName
    else resourceName in
  {| HostDeviceNetworkName := Name (hdnMeta cr);
     hdCrSpec := hdnSpec cr;
     hdRuntimeSpec := {| rsNamespace := NetworkOperatorResourceNamespace |};
     hdResourceName := resourceName |}.

(** The custom resource with its resource-name field replaced. *)
Definition withResourceName (r : string) (cr : HostDeviceNetwork) : HostDeviceNetwork :=
  {| hdnMeta := hdnMeta cr;
     hdnSpec := {| NetworkNamespace := NetworkNamespace (hdnSpec cr);
                   ResourceName := r;
                   IPAM := IPAM (hdnSpec cr) |} |}.

Definition getManifestObjects (s : stateSkel) (cr : HostDeviceNetwork)
  : Go (list Unstructured * error) :=
  (r <- call (RenderObjects (renderer s) (DataHostDevice (renderData cr))) ;;
   let '(objs, err) := r in
   if notNil err then ret ([], errors_Wrap err "failed to render objects")
   else ret (objs, None))%go.

(** The mutation hook handed to [createOrUpdateObjs]. *)
Definition setControllerReference (s : stateSkel) (cr : HostDeviceNetwork)
    (obj : Unstructured) : Unstructured * error :=
  let '(obj', err) := SetControllerReference (OwnerHostDeviceNetwork cr) obj (scheme s) in
  if notNil err
  then (obj', errors_Wrap err "failed to set controller reference for object")
  else (obj', None).

Definition Sync (m : stateSkelMethods) (s : stateSkel)
    (customResource : dynval) (_ : option InfoCatalog) : Go (SyncState * error) :=
  (p <- assertHostDeviceNetwork customResource ;;
   cr <- deref p ;;
   r <- getManifestObjects s cr ;;
   let '(objs, err) := r in
   if notNil err
   then ret (SyncStateError, errors_Wrap err "failed to render HostDeviceNetwork")
   else if Nat.eqb (length objs) 0
   then ret (SyncStateError, errors_Wrap err "no rendered objects found")
   else
   netAttDef <- index objs 0 ;;
   if negb (String.eqb (GetKind netAttDef) "NetworkAttachmentDefinition")
   then ret (SyncStateError, errors_Wrap err "no NetworkAttachmentDefinition object found")
   else
   err <- call (createOrUpdateObjs m s (setControllerReference s cr) objs) ;;
   if notNil err
   then ret (SyncStateNotReady, errors_Wrap err "failed to create/update objects")
   else
   r <- call (getSyncState m s objs) ;;
   let '(syncState, err) := r in
   if notNil err
   then ret (SyncStateNotReady, errors_Wrap err "failed to get sync state")
   else
   err <- call (getObj m s netAttDef) ;;
   if notNil err
   then ret (SyncStateError, errors_Wrap err "failed to get NetworkAttachmentDefinition")
   else ret (syncState, None))%go.

Definition stateHostDeviceNetworkName : string := "state-host-device-network".
Definition stateHostDeviceNetworkDescription : string :=
  "Host Device net-attach-def CR deployed in cluster".

Definition NewStateHostDeviceNetwork (env : Manifests) (k8sAPIClient : Client)
    (sch : Scheme) (manifestDir : string) : option stateSkel * error :=
  let '(files, err) := GetFilesWithSuffix env manifestDir (ManifestFileSuffix env) in
  if notNil err
  then (None, errors_Wrap err "failed to get files from manifest dir")
  else
    let renderer := NewRenderer env files in
    (Some {| name := stateHostDeviceNetworkName;
             description := stateHostDeviceNetworkDescription;
             client := k8sAPIClient;
             scheme := sch;
             renderer := renderer |}, None).

Definition GetWatchSources (s : stateSkel) : gmap string watchedType :=
  let wr : gmap string watchedType := ∅ in
  let wr := <["HostDeviceNetwork" := TypeHostDeviceNetwork]> wr in
  let wr := <["NetworkAttachmentDefinition" := TypeNetworkAttachmentDefinition]> wr in
  wr.

End stateHostDeviceNetwork.

(** ** The SR-IOV device plugin state *)

Module stateSriovDp.

(** The filter of the node-attribute query: nodes labelled as carrying a NIC. *)
Definition nicNodeFilters : list Filter :=
  [Build (WithLabel NodeLabelMlnxNIC "true" NewNodeLabelFilterBuilder)].

(** The render data built in [getManifestObjects] from the custom resource
    and the node attributes. *)
Definition renderData (cr : NicClusterPolicy) (attrs : list NodeAttributes)
  : Go sriovDpManifestRenderData :=
  (first <- index attrs 0 ;;
   ret {| dpCrSpec := SriovDevicePlugin (ncpSpec cr);
          dpNodeAffinity := NodeAffinityField (ncpSpec cr);
          DeployInitContainer := bool_decide (OFEDDriver (ncpSpec cr) <> None);
          dpRuntime :=
            {| dpRuntimeSpec := {| rsNamespace := NetworkOperatorResourceNamespace |};
               CPUArch := "";
               OSName := mapIndex (Attributes first) AttrTypeOSName |} |})%go.

Definition getManifestObjects (s : stateSkel) (cr : NicClusterPolicy)
    (nodeInfo : Provider) : Go (list Unstructured * error) :=
  (attrs <- call (GetNodesAttributes nodeInfo nicNodeFilters) ;;
   if Nat.eqb (length attrs) 0 then ret ([], None)
   else
   data <- renderData cr attrs ;;
   r <- call (RenderObjects (renderer s) (DataSriovDp data)) ;;
   let '(objs, err) := r in
   if notNil err then ret ([], errors_Wrap err "failed to render objects")
   else ret (objs, None))%go.

(** The mutation hook handed to [createOrUpdateObjs]. *)
Definition setControllerReference (s : stateSkel) (cr : NicClusterPolicy)
    (obj : Unstructured) : Unstructured * error :=
  let '(obj', err) := SetControllerReference (OwnerNicClusterPolicy cr) obj (scheme s) in
  if notNil err
  then (obj', errors_Wrap err "failed to set controller reference for object")
  else (obj', None).

Definition Sync (m : stateSkelMethods) (s : stateSkel)
    (customResource : dynval) (infoCatalog : option InfoCatalog) : Go (SyncState * error) :=
  (p <- assertNicClusterPolicy customResource ;;
   cr <- deref p ;;
   if bool_decide (SriovDevicePlugin (ncpSpec cr) = None)
   then ret (SyncStateIgnore, None)
   else
   catalog <- deref infoCatalog ;;
   nodeInfo <- call (GetNodeInfoProvider catalog) ;;
   match nodeInfo with
   | None =>
     ret (SyncStateError,
          errors_New "unexpected state, catalog does not provide node information")
   | Some nodeInfo =>
     r <- getManifestObjects s cr nodeInfo ;;
     let '(objs, err) := r in
     if notNil err
     then ret (SyncStateNotReady, errors_Wrap err "failed to create k8s objects from manifest")
     else if Nat.eqb (length objs) 0
     then ret (SyncStateNotReady, None)
     else
     err <- call (createOrUpdateObjs m s (setControllerReference s cr) objs) ;;
     if notNil err
     then ret (SyncStateNotReady, errors_Wrap err "failed to create/update objects")
     else
     r <- call (getSyncState m s objs) ;;
     let '(syncState, err) := r in
     if notNil err
     then ret (SyncStateNotReady, errors_Wrap err "failed to get sync state")
     else ret (syncState, None)
   end)%go.

Definition NewStateSriovDp (env : Manifests) (k8sAPIClient : Client)
    (sch : Scheme) (manifestDir : string) : option stateSkel * error :=
  let '(files, err) := GetFilesWithSuffix env manifestDir (ManifestFileSuffix env) in
  if notNil err
  then (None, errors_Wrap err "failed to get files from manifest dir")
  else
    let renderer := NewRenderer env files in
    (Some {| name := "state-SRIOV-device-plugin";
             description := "SR-IOV device plugin deployed in the cluster";
             client := k8sAPIClient;
             scheme := sch;
             renderer := renderer |}, None).

Definition GetWatchSources (s : stateSkel) : gmap string watchedType :=
  let wr : gmap string watchedType := ∅ in
  let wr := <["DaemonSet" := TypeDaemonSet]> wr in
  wr.

End stateSriovDp.

(** ** Sample values *)

Module Sample.

Definition emptyWorld : World := {| cluster := ∅; calls := [] |}.

Definition sch : Scheme := {| knownKinds := ["HostDeviceNetwork"; "NicClusterPolicy"] |}.

(** A cluster API that accepts every request. *)
Definition accepting : Client := {| apiRejects := fun _ _ => None |}.

Definition rendering (objs : list Unstructured) : Renderer :=
  {| renderObjects := fun _ => (objs, None) |}.

Definition skel (c : Client) (r : Renderer) (nm : string) : stateSkel :=
  {| name := nm; description := ""; client := c; scheme := sch; renderer := r |}.

Definition noStatus : ObjStatus :=
  {| desiredNumberScheduled := 0; numberReady := 0; terminalError := false |}.

Definition netAttDef : Unstructured :=
  {| uKind := "NetworkAttachmentDefinition"; uNamespace := "default"; uName := "hostdev-net";
     uOwnerReferences := []; uSpec := "resourceName: nvidia.com/ib0"; uStatus := noStatus |}.

Definition daemonSet : Unstructured :=
  {| uKind := "DaemonSet"; uNamespace := NetworkOperatorResourceNamespace;
     uName := "network-operator-sriov-device-plugin";
     uOwnerReferences := []; uSpec := "image: sriov-device-plugin"; uStatus := noStatus |}.

(** A config map that another controller already owns. *)
Definition foreignConfigMap : Unstructured :=
  {| uKind := "ConfigMap"; uNamespace := NetworkOperatorResourceNamespace;
     uName := "sriovdp-config";
     uOwnerReferences :=
       [{| refKind := "Deployment"; refName := "other-operator"; refUID := "u-77";
           refController := true |}];
     uSpec := "resourceList: []"; uStatus := noStatus |}.

Definition hostDeviceNetwork : HostDeviceNetwork :=
  {| hdnMeta := {| Name := "hostdev-net"; Namespace := ""; UID := "u-1" |};
     hdnSpec := {| NetworkNamespace := "default"; ResourceName := "ib0"; IPAM := "" |} |}.

Definition nicClusterPolicy : NicClusterPolicy :=
  {| ncpMeta := {| Name := "nic-cluster-policy"; Namespace := ""; UID := "u-2" |};
     ncpSpec := {| NodeAffinityField := None; OFEDDriver := None;
                   SriovDevicePlugin := Some (MkDevicePluginSpec "sriov-device-plugin") |} |}.

Definition nicClusterPolicyNoPlugin : NicClusterPolicy :=
  {| ncpMeta := {| Name := "nic-cluster-policy"; Namespace := ""; UID := "u-2" |};
     ncpSpec := {| NodeAffinityField := None; OFEDDriver := None;
                   SriovDevicePlugin := None |} |}.

Definition node (nm os : string) : NodeAttributes :=
  {| naName := nm; Attributes := {[ AttrTypeOSName := os ]} |}.

Definition catalogOf (nodes : list NodeAttributes) : InfoCatalog :=
  {| nodeInfoProvider := Some {| nodesAttributes := fun _ => nodes |} |}.

(** A cluster API that rejects every write. *)
Definition readOnly : Client :=
  {| apiRejects := fun c _ =>
       match c with
       | CallCreate _ | CallUpdate _ => errors_New "forbidden"
       | _ => None
       end |}.

(** A cluster API that rejects a read coming directly after another read. *)
Definition throttled : Client :=
  {| apiRejects := fun c w =>
       match c, last (calls w) with
       | CallGet _, Some (CallGet _) => errors_New "too many requests"
       | _, _ => None
       end |}.

(** A cluster API that rejects every read made after the first write. *)
Definition unreadableAfterApply : Client :=
  {| apiRejects := fun c w =>
       match c with
       | CallGet _ =>
         if existsb isApply (calls w)
         then errors_New "the server is currently unable to handle the request"
         else None
       | _ => None
       end |}.

(** A renderer whose templates do not render. *)
Definition failing : Renderer :=
  {| renderObjects := fun _ => ([], errors_New "template: unexpected end of input") |}.

(** A catalog that holds no node-info provider. *)
Definition catalogWithoutProvider : InfoCatalog := {| nodeInfoProvider := None |}.

(** A node record without any attribute. *)
Definition bareNode (nm : string) : NodeAttributes :=
  {| naName := nm; Attributes := ∅ |}.

(** A manifest directory holding two templates; any other directory is missing. *)
Definition manifests : Manifests :=
  {| GetFilesWithSuffix := fun dir _ =>
       if String.eqb dir "/manifests/stage-hostdevice-network"
       then (["0010-hostdevice-net-cr.yml"; "0020-extra.yaml"], None)
       else ([], errors_New "no such file or directory");
     ManifestFileSuffix := ["yaml"; "yml"; "json"];
     NewRenderer := fun files => rendering (map (fun f =>
       {| uKind := "NetworkAttachmentDefinition"; uNamespace := "default"; uName := f;
          uOwnerReferences := []; uSpec := ""; uStatus := noStatus |}) files) |}.

End Sample.


(** * Properties *)

Import Sample.

(** ** The computation monad *)

Lemma bind_ret {A B : Type} (a : A) (k : A -> Go B) (w : World) :
  bind (ret a) k w = k a w.
Proof. reflexivity. Qed.

Lemma bind_call {A B : Type} (f : World -> A * World) (k : A -> Go B) (w : World) :
  bind (call f) k w = k (f w).1 (f w).2.
Proof. unfold bind, call. by destruct (f w). Qed.

Lemma bind_returned {A B : Type} (m : Go A) (k : A -> Go B) (w w' : World) (a : A) :
  m w = (Returned a, w') -> bind m k w = k a w'.
Proof. unfold bind. by intros ->. Qed.

Lemma index_cons {A : Type} (a : A) (l : list A) : index (a :: l) 0 = ret a.
Proof. reflexivity. Qed.

(** One step of a computation whose head is known. *)
Ltac go_step :=
  repeat first
    [ rewrite bind_ret
    | rewrite index_cons
    | progress cbn [notNil Nat.eqb length] ].

(** ** Strings *)

Lemma prefix_append (p s : string) : String.prefix p (p +:+ s) = true.
Proof.
  induction p as [|a p IH]; simpl.
  - by destruct s.
  - destruct (Ascii.ascii_dec a a); [exact IH | congruence].
Qed.

(** ** Scenarios *)

(** A resource name [ib0] is rendered as [nvidia.com/ib0]; one
    NetworkAttachmentDefinition is rendered, created and observed. *)
Example hdn_scenario_ready :
  let s := skel accepting (rendering [netAttDef]) "state-host-device-network" in
  let r := stateHostDeviceNetwork.Sync specSkel s
             (DynHostDeviceNetwork (Some hostDeviceNetwork)) None emptyWorld in
  hdResourceName (stateHostDeviceNetwork.renderData hostDeviceNetwork) = "nvidia.com/ib0" /\
  fst r = Returned (SyncStateReady, None) /\
  map isApply (calls (snd r)) = [false; false; true; false; false] /\
  (uOwnerReferences <$> cluster (snd r) !! keyOf netAttDef)
  = Some [controllerRef (OwnerHostDeviceNetwork hostDeviceNetwork)].
Proof. repeat split; reflexivity. Qed.

(** The daemon set is created; the config map that another controller owns
    stops the batch, and nothing else reaches the cluster. *)
Example sriov_scenario_foreign_object :
  let s := skel accepting (rendering [daemonSet; foreignConfigMap])
             "state-SRIOV-device-plugin" in
  let r := stateSriovDp.Sync specSkel s (DynNicClusterPolicy (Some nicClusterPolicy))
             (Some (catalogOf [node "node-1" "ubuntu"])) emptyWorld in
  (fst <$> map_to_list (cluster (snd r))) = [keyOf daemonSet] /\
  map isApply (calls (snd r)) = [false; false; false; false; true].
Proof. split; reflexivity. Qed.

(** A custom resource without the device plugin sub-spec. *)
Example sriov_scenario_ignore :
  stateSriovDp.Sync specSkel (skel accepting (rendering [daemonSet]) "state-SRIOV-device-plugin")
    (DynNicClusterPolicy (Some nicClusterPolicyNoPlugin)) None emptyWorld
  = (Returned (SyncStateIgnore, None), emptyWorld).
Proof. reflexivity. Qed.

(** ** Resource-name normalisation *)

Section Normalisation.

Import stateHostDeviceNetwork.

Lemma renderData_prefixed (cr : HostDeviceNetwork) :
  strings_HasPrefix (hdResourceName (renderData cr)) resourceNamePrefix = true.
Proof.
  unfold renderData; simpl.
  destruct (strings_HasPrefix (ResourceName (hdnSpec cr)) resourceNamePrefix) eqn:E; simpl.
  - exact E.
  - apply prefix_append.
Qed.

Lemma renderData_withResourceName (r : string) (cr : HostDeviceNetwork) :
  strings_HasPrefix r resourceNamePrefix = true ->
  hdResourceName (renderData (withResourceName r cr)) = r.
Proof. unfold renderData; simpl. by intros ->. Qed.

(** C8. The render-data builder of the HostDeviceNetwork state prepends
    exactly one copy of the prefix [nvidia.com/] to a resource name that does
    not start with it, leaves a name that starts with it unchanged, and is
    idempotent: building again from its own result changes nothing. *)
Theorem resource_name_normalisation (cr : HostDeviceNetwork) :
  (strings_HasPrefix (ResourceName (hdnSpec cr)) "nvidia.com/" = false ->
   hdResourceName (renderData cr) = "nvidia.com/" +:+ ResourceName (hdnSpec cr)) /\
  (strings_HasPrefix (ResourceName (hdnSpec cr)) "nvidia.com/" = true ->
   hdResourceName (renderData cr) = ResourceName (hdnSpec cr)) /\
  hdResourceName (renderData (withResourceName (hdResourceName (renderData cr)) cr))
  = hdResourceName (renderData cr).
Proof.
  split; [|split].
  - intros H. unfold renderData; simpl. unfold resourceNamePrefix. by rewrite H.
  - intros H. unfold renderData; simpl. unfold resourceNamePrefix. by rewrite H.
  - apply renderData_withResourceName, renderData_prefixed.
Qed.

Lemma resource_name_normalisation_witness :
  hdResourceName (renderData hostDeviceNetwork) = "nvidia.com/ib0" /\
  hdResourceName (renderData (withResourceName "nvidia.com/ib0" hostDeviceNetwork))
  = "nvidia.com/ib0".
Proof.
  split.
  - apply (proj1 (resource_name_normalisation hostDeviceNetwork)). reflexivity.
  - apply (proj1 (proj2 (resource_name_normalisation
                           (withResourceName "nvidia.com/ib0" hostDeviceNetwork)))).
    reflexivity.
Defined.

End Normalisation.

(** ** Rendering *)

Lemma hdn_getManifestObjects_run (s : stateSkel) (cr : HostDeviceNetwork) (w : World) :
  let data := DataHostDevice (stateHostDeviceNetwork.renderData cr) in
  stateHostDeviceNetwork.getManifestObjects s cr w =
  (Returned (match renderObjects (renderer s) data with
             | (objs, None) => (objs, None)
             | (_, Some e) => ([], Some (ErrWrap e "failed to render objects"))
             end),
   record (CallRenderObjects data) w).
Proof.
  unfold stateHostDeviceNetwork.getManifestObjects. rewrite bind_call. simpl.
  by destruct (renderObjects _ _) as [objs [e|]].
Qed.

Lemma sriov_renderData_cons (cr : NicClusterPolicy) (first : NodeAttributes)
    (rest : list NodeAttributes) (w : World) :
  stateSriovDp.renderData cr (first :: rest) w =
  (Returned
     {| dpCrSpec := SriovDevicePlugin (ncpSpec cr);
        dpNodeAffinity := NodeAffinityField (ncpSpec cr);
        DeployInitContainer := bool_decide (OFEDDriver (ncpSpec cr) <> None);
        dpRuntime :=
          {| dpRuntimeSpec := {| rsNamespace := NetworkOperatorResourceNamespace |};
             CPUArch := "";
             OSName := mapIndex (Attributes first) AttrTypeOSName |} |}, w).
Proof. reflexivity. Qed.

Lemma sriov_renderData_world (cr : NicClusterPolicy) (attrs : list NodeAttributes)
    (w w' : World) :
  fst (stateSriovDp.renderData cr attrs w) = fst (stateSriovDp.renderData cr attrs w').
Proof. by destruct attrs. Qed.

Lemma sriov_getManifestObjects_empty (s : stateSkel) (cr : NicClusterPolicy)
    (nodeInfo : Provider) (w : World) :
  nodesAttributes nodeInfo stateSriovDp.nicNodeFilters = [] ->
  stateSriovDp.getManifestObjects s cr nodeInfo w =
  (Returned ([], None), record (CallGetNodesAttributes stateSriovDp.nicNodeFilters) w).
Proof.
  intros H. unfold stateSriovDp.getManifestObjects. rewrite bind_call. simpl.
  by rewrite H.
Qed.

Lemma sriov_getManifestObjects_run (s : stateSkel) (cr : NicClusterPolicy)
    (nodeInfo : Provider) (attrs : list NodeAttributes)
    (d : sriovDpManifestRenderData) (w : World) :
  nodesAttributes nodeInfo stateSriovDp.nicNodeFilters = attrs ->
  fst (stateSriovDp.renderData cr attrs w) = Returned d ->
  stateSriovDp.getManifestObjects s cr nodeInfo w =
  (Returned (match renderObjects (renderer s) (DataSriovDp d) with
             | (objs, None) => (objs, None)
             | (_, Some e) => ([], Some (ErrWrap e "failed to render objects"))
             end),
   record (CallRenderObjects (DataSriovDp d))
     (record (CallGetNodesAttributes stateSriovDp.nicNodeFilters) w)).
Proof.
  intros Hattrs Hd. unfold stateSriovDp.getManifestObjects. rewrite bind_call. simpl.
  rewrite Hattrs. destruct attrs as [|first rest]; [discriminate Hd|].
  simpl in Hd. injection Hd as <-. simpl.
  rewrite (bind_returned _ _ _ _ _ (sriov_renderData_cons cr first rest _)).
  rewrite bind_call. simpl.
  by destruct (renderObjects _ _) as [objs [e|]].
Qed.

(** ** Entering [Sync] *)

Lemma hdn_Sync_enter (m : stateSkelMethods) (s : stateSkel) (cr : HostDeviceNetwork)
    (cat : option InfoCatalog) (w : World) :
  stateHostDeviceNetwork.Sync m s (DynHostDeviceNetwork (Some cr)) cat w =
  bind (stateHostDeviceNetwork.getManifestObjects s cr)
    (fun r =>
       let '(objs, err) := r in
       if notNil err
       then ret (SyncStateError, errors_Wrap err "failed to render HostDeviceNetwork")
       else if Nat.eqb (length objs) 0
       then ret (SyncStateError, errors_Wrap err "no rendered objects found")
       else
       bind (index objs 0) (fun netAttDef =>
       if negb (String.eqb (GetKind netAttDef) "NetworkAttachmentDefinition")
       then ret (SyncStateError,
                 errors_Wrap err "no NetworkAttachmentDefinition object found")
       else
       bind (call (createOrUpdateObjs m s
                     (stateHostDeviceNetwork.setControllerReference s cr) objs))
         (fun err =>
       if notNil err
       then ret (SyncStateNotReady, errors_Wrap err "failed to create/update objects")
       else
       bind (call (getSyncState m s objs)) (fun r =>
       let '(syncState, err) := r in
       if notNil err
       then ret (SyncStateNotReady, errors_Wrap err "failed to get sync state")
       else
       bind (call (getObj m s netAttDef)) (fun err =>
       if notNil err
       then ret (SyncStateError,
                 errors_Wrap err "failed to get NetworkAttachmentDefinition")
       else ret (syncState, None)))))) w.
Proof. reflexivity. Qed.

Lemma sriov_Sync_enter (m : stateSkelMethods) (s : stateSkel) (cr : NicClusterPolicy)
    (catalog : InfoCatalog) (nodeInfo : Provider) (w : World) :
  SriovDevicePlugin (ncpSpec cr) <> None ->
  nodeInfoProvider catalog = Some nodeInfo ->
  stateSriovDp.Sync m s (DynNicClusterPolicy (Some cr)) (Some catalog) w =
  bind (stateSriovDp.getManifestObjects s cr nodeInfo)
    (fun r =>
       let '(objs, err) := r in
       if notNil err
       then ret (SyncStateNotReady,
                 errors_Wrap err "failed to create k8s objects from manifest")
       else if Nat.eqb (length objs) 0
       then ret (SyncStateNotReady, None)
       else
       bind (call (createOrUpdateObjs m s (stateSriovDp.setControllerReference s cr) objs))
         (fun err =>
       if notNil err
       then ret (SyncStateNotReady, errors_Wrap err "failed to create/update objects")
       else
       bind (call (getSyncState m s objs)) (fun r =>
       let '(syncState, err) := r in
       if notNil err
       then ret (SyncStateNotReady, errors_Wrap err "failed to get sync state")
       else ret (syncState, None))))
    (record CallGetNodeInfoProvider w).
Proof.
  intros Hplugin Hprovider. unfold stateSriovDp.Sync.
  change (assertNicClusterPolicy (DynNicClusterPolicy (Some cr))) with (ret (Some cr)).
  rewrite bind_ret. change (deref (Some cr)) with (ret cr). rewrite bind_ret.
  rewrite bool_decide_eq_false_2 by exact Hplugin.
  change (deref (Some catalog)) with (ret catalog). rewrite bind_ret, bind_call.
  simpl. by rewrite Hprovider.
Qed.

(** What [Sync] of the HostDeviceNetwork state does with a render result it
    refuses: no object, or a first object of another kind. *)
Lemma hdn_Sync_refused_render (m : stateSkelMethods) (s : stateSkel)
    (cr : HostDeviceNetwork) (cat : option InfoCatalog) (w : World)
    (objs : list Unstructured) :
  renderObjects (renderer s) (DataHostDevice (stateHostDeviceNetwork.renderData cr))
  = (objs, None) ->
  objs = [] \/
  (exists first rest,
     objs = first :: rest /\ GetKind first <> "NetworkAttachmentDefinition") ->
  stateHostDeviceNetwork.Sync m s (DynHostDeviceNetwork (Some cr)) cat w
  = (Returned (SyncStateError, None),
     record (CallRenderObjects (DataHostDevice (stateHostDeviceNetwork.renderData cr))) w).
Proof.
  intros Hrender Hobjs.
  rewrite hdn_Sync_enter.
  rewrite (bind_returned _ _ _ _ _ (hdn_getManifestObjects_run s cr w)).
  rewrite Hrender.
  destruct Hobjs as [-> | (first & rest & -> & Hkind)]; [reflexivity|].
  go_step. apply String.eqb_neq in Hkind. by rewrite Hkind.
Qed.

(** ** Empty and malformed render results *)

(** C9. In the HostDeviceNetwork state, when rendering succeeds but yields no
    object, or yields a first object whose kind is not
    NetworkAttachmentDefinition, [Sync] returns the Error verdict together
    with a nil error: the error is wrapped from the nil render error. *)
Theorem hdn_error_verdict_with_nil_error (m : stateSkelMethods) (s : stateSkel)
    (cr : HostDeviceNetwork) (cat : option InfoCatalog) (w : World)
    (objs : list Unstructured) :
  renderObjects (renderer s) (DataHostDevice (stateHostDeviceNetwork.renderData cr))
  = (objs, None) ->
  objs = [] \/
  (exists first rest,
     objs = first :: rest /\ GetKind first <> "NetworkAttachmentDefinition") ->
  fst (stateHostDeviceNetwork.Sync m s (DynHostDeviceNetwork (Some cr)) cat w)
  = Returned (SyncStateError, None).
Proof.
  intros Hrender Hobjs.
  by rewrite (hdn_Sync_refused_render m s cr cat w objs Hrender Hobjs).
Qed.

Lemma hdn_error_verdict_with_nil_error_witness :
  fst (stateHostDeviceNetwork.Sync specSkel (skel accepting (rendering [daemonSet]) "hdn")
         (DynHostDeviceNetwork (Some hostDeviceNetwork)) None emptyWorld)
  = Returned (SyncStateError, None).
Proof.
  apply (hdn_error_verdict_with_nil_error specSkel _ hostDeviceNetwork None emptyWorld
           [daemonSet]).
  - reflexivity.
  - right. exists daemonSet, []. split; [reflexivity|]. vm_compute. discriminate.
Defined.

(** C1, as stated, fails: the HostDeviceNetwork state answers an empty render
    result with the Error verdict. *)
Lemma hdn_empty_render_is_error :
  let s := skel accepting (rendering []) "state-host-device-network" in
  renderObjects (renderer s)
    (DataHostDevice (stateHostDeviceNetwork.renderData hostDeviceNetwork)) = ([], None) /\
  fst (stateHostDeviceNetwork.Sync specSkel s
         (DynHostDeviceNetwork (Some hostDeviceNetwork)) None emptyWorld)
  = Returned (SyncStateError, None).
Proof. split; reflexivity. Qed.

(** C1, amended. When the renderer succeeds with an empty object sequence,
    the SR-IOV device plugin state's [Sync] treats it as a valid outcome and
    returns NotReady with a nil error, whereas the HostDeviceNetwork state's
    [Sync] returns the Error verdict. *)
Theorem empty_render_verdicts (m : stateSkelMethods) (s : stateSkel) (w : World) :
  (forall (cr : NicClusterPolicy) (catalog : InfoCatalog) (nodeInfo : Provider)
          (d : sriovDpManifestRenderData),
     SriovDevicePlugin (ncpSpec cr) <> None ->
     nodeInfoProvider catalog = Some nodeInfo ->
     fst (stateSriovDp.renderData cr
            (nodesAttributes nodeInfo stateSriovDp.nicNodeFilters) w) = Returned d ->
     renderObjects (renderer s) (DataSriovDp d) = ([], None) ->
     fst (stateSriovDp.Sync m s (DynNicClusterPolicy (Some cr)) (Some catalog) w)
     = Returned (SyncStateNotReady, None)) /\
  (forall (cr : HostDeviceNetwork) (cat : option InfoCatalog),
     renderObjects (renderer s) (DataHostDevice (stateHostDeviceNetwork.renderData cr))
     = ([], None) ->
     exists e,
       fst (stateHostDeviceNetwork.Sync m s (DynHostDeviceNetwork (Some cr)) cat w)
       = Returned (SyncStateError, e)).
Proof.
  split.
  - intros cr catalog nodeInfo d Hplugin Hprovider Hd Hrender.
    rewrite (sriov_Sync_enter m s cr catalog nodeInfo w Hplugin Hprovider).
    erewrite bind_returned; last first.
    { eapply (sriov_getManifestObjects_run s cr nodeInfo _ d); [reflexivity|].
      rewrite <- Hd. apply sriov_renderData_world. }
    by rewrite Hrender.
  - intros cr cat Hrender. exists None.
    rewrite (hdn_Sync_refused_render m s cr cat w []); auto.
Qed.

Lemma empty_render_verdicts_witness :
  fst (stateSriovDp.Sync specSkel (skel accepting (rendering []) "state-SRIOV-device-plugin")
         (DynNicClusterPolicy (Some nicClusterPolicy))
         (Some (catalogOf [node "node-1" "ubuntu"])) emptyWorld)
  = Returned (SyncStateNotReady, None) /\
  exists e,
    fst (stateHostDeviceNetwork.Sync specSkel
           (skel accepting (rendering []) "state-host-device-network")
           (DynHostDeviceNetwork (Some hostDeviceNetwork)) None emptyWorld)
    = Returned (SyncStateError, e).
Proof.
  split.
  - eapply (proj1 (empty_render_verdicts specSkel _ emptyWorld)
              nicClusterPolicy (catalogOf [node "node-1" "ubuntu"])).
    + discriminate.
    + reflexivity.
    + reflexivity.
    + reflexivity.
  - apply (proj2 (empty_render_verdicts specSkel _ emptyWorld) hostDeviceNetwork None).
    reflexivity.
Defined.

Lemma sriov_Sync_nil_plugin (m : stateSkelMethods) (s : stateSkel)
    (cr : NicClusterPolicy) (infoCatalog : option InfoCatalog) (w : World) :
  SriovDevicePlugin (ncpSpec cr) = None ->
  stateSriovDp.Sync m s (DynNicClusterPolicy (Some cr)) infoCatalog w
  = (Returned (SyncStateIgnore, None), w).
Proof.
  intros Hnil. unfold stateSriovDp.Sync.
  change (assertNicClusterPolicy (DynNicClusterPolicy (Some cr))) with (ret (Some cr)).
  rewrite bind_ret. change (deref (Some cr)) with (ret cr). rewrite bind_ret.
  by rewrite bool_decide_eq_true_2.
Qed.

Lemma sriov_getManifestObjects_returns (s : stateSkel) (cr : NicClusterPolicy)
    (nodeInfo : Provider) (w : World) :
  returnsNormally (stateSriovDp.getManifestObjects s cr nodeInfo w).
Proof.
  destruct (nodesAttributes nodeInfo stateSriovDp.nicNodeFilters)
    as [|first rest] eqn:Hattrs.
  - rewrite (sriov_getManifestObjects_empty s cr nodeInfo w Hattrs). by eexists.
  - erewrite (sriov_getManifestObjects_run s cr nodeInfo _ _ w Hattrs);
      [by eexists | reflexivity].
Qed.

(** ** The SR-IOV state when there is nothing to do *)

(** C3. In the SR-IOV device plugin state, a custom resource whose
    SriovDevicePlugin sub-spec is nil makes [Sync] return Ignore with a nil
    error and leaves the world as it was: no object is created and no call
    is made to the info catalog, the renderer or the cluster, whatever the
    other fields of the custom resource are. *)
Theorem sriov_nil_plugin_is_ignored (m : stateSkelMethods) (s : stateSkel)
    (cr : NicClusterPolicy) (infoCatalog : option InfoCatalog) (w : World) :
  SriovDevicePlugin (ncpSpec cr) = None ->
  stateSriovDp.Sync m s (DynNicClusterPolicy (Some cr)) infoCatalog w
  = (Returned (SyncStateIgnore, None), w).
Proof. apply sriov_Sync_nil_plugin. Qed.

Lemma sriov_nil_plugin_is_ignored_witness :
  stateSriovDp.Sync specSkel (skel accepting (rendering [daemonSet]) "state-SRIOV-device-plugin")
    (DynNicClusterPolicy (Some nicClusterPolicyNoPlugin))
    (Some (catalogOf [node "node-1" "ubuntu"])) emptyWorld
  = (Returned (SyncStateIgnore, None), emptyWorld).
Proof. apply sriov_nil_plugin_is_ignored. reflexivity. Defined.

(** C4. In the SR-IOV device plugin state, when the sub-spec is set, the
    catalog provides a node-info provider and the filtered node-attribute
    query returns no record, [Sync] returns NotReady with a nil error; the
    only calls made are the two catalog queries, so the renderer is not
    invoked and nothing is applied. *)
Theorem sriov_no_nodes_is_not_ready (m : stateSkelMethods) (s : stateSkel)
    (cr : NicClusterPolicy) (catalog : InfoCatalog) (nodeInfo : Provider) (w : World) :
  SriovDevicePlugin (ncpSpec cr) <> None ->
  nodeInfoProvider catalog = Some nodeInfo ->
  nodesAttributes nodeInfo stateSriovDp.nicNodeFilters = [] ->
  exists w',
    stateSriovDp.Sync m s (DynNicClusterPolicy (Some cr)) (Some catalog) w
    = (Returned (SyncStateNotReady, None), w') /\
    cluster w' = cluster w /\
    calls w' = calls w ++ [CallGetNodeInfoProvider;
                           CallGetNodesAttributes stateSriovDp.nicNodeFilters] /\
    existsb isRender (calls w') = existsb isRender (calls w) /\
    existsb isApply (calls w') = existsb isApply (calls w).
Proof.
  intros Hplugin Hprovider Hnone.
  eexists. split.
  - rewrite (sriov_Sync_enter m s cr catalog nodeInfo w Hplugin Hprovider).
    rewrite (bind_returned _ _ _ _ _
               (sriov_getManifestObjects_empty s cr nodeInfo _ Hnone)).
    reflexivity.
  - simpl. rewrite <- app_assoc. simpl.
    repeat split; rewrite existsb_app; simpl; apply orb_false_r.
Qed.

Lemma sriov_no_nodes_is_not_ready_witness :
  exists w',
    stateSriovDp.Sync specSkel
      (skel accepting (rendering [daemonSet]) "state-SRIOV-device-plugin")
      (DynNicClusterPolicy (Some nicClusterPolicy)) (Some (catalogOf [])) emptyWorld
    = (Returned (SyncStateNotReady, None), w') /\
    cluster w' = cluster emptyWorld /\
    calls w' = calls emptyWorld ++ [CallGetNodeInfoProvider;
                                    CallGetNodesAttributes stateSriovDp.nicNodeFilters] /\
    existsb isRender (calls w') = existsb isRender (calls emptyWorld) /\
    existsb isApply (calls w') = existsb isApply (calls emptyWorld).
Proof.
  eapply (sriov_no_nodes_is_not_ready specSkel _ nicClusterPolicy (catalogOf [])).
  - discriminate.
  - reflexivity.
  - reflexivity.
Defined.

(** ** Render data of the SR-IOV state *)



(** ** From the apply step on *)

Lemma hdn_Sync_apply (m : stateSkelMethods) (s : stateSkel) (cr : HostDeviceNetwork)
    (cat : option InfoCatalog) (w w1 : World) (first : Unstructured)
    (rest : list Unstructured) :
  stateHostDeviceNetwork.getManifestObjects s cr w = (Returned (first :: rest, None), w1) ->
  GetKind first = "NetworkAttachmentDefinition" ->
  stateHostDeviceNetwork.Sync m s (DynHostDeviceNetwork (Some cr)) cat w =
  match createOrUpdateObjs m s (stateHostDeviceNetwork.setControllerReference s cr)
          (first :: rest) w1 with
  | (Some e, w2) =>
    (Returned (SyncStateNotReady, Some (ErrWrap e "failed to create/update objects")), w2)
  | (None, w2) =>
    match getSyncState m s (first :: rest) w2 with
    | ((_, Some e), w3) =>
      (Returned (SyncStateNotReady, Some (ErrWrap e "failed to get sync state")), w3)
    | ((syncState, None), w3) =>
      match getObj m s first w3 with
      | (Some e, w4) =>
        (Returned (SyncStateError,
                   Some (ErrWrap e "failed to get NetworkAttachmentDefinition")), w4)
      | (None, w4) => (Returned (syncState, None), w4)
      end
    end
  end.
Proof.
  intros Hrender Hkind.
  rewrite hdn_Sync_enter, (bind_returned _ _ _ _ _ Hrender).
  go_step. rewrite Hkind. cbn [String.eqb Ascii.eqb Bool.eqb negb].
  rewrite bind_call.
  destruct (createOrUpdateObjs m s _ _ w1) as [[e|] w2]; [reflexivity|].
  cbn [fst snd notNil]. rewrite bind_call.
  destruct (getSyncState m s _ w2) as [[syncState [e|]] w3]; [reflexivity|].
  cbn [fst snd notNil]. rewrite bind_call.
  by destruct (getObj m s first w3) as [[e|] w4].
Qed.

Lemma sriov_Sync_apply (m : stateSkelMethods) (s : stateSkel) (cr : NicClusterPolicy)
    (catalog : InfoCatalog) (nodeInfo : Provider) (w w1 : World)
    (objs : list Unstructured) :
  SriovDevicePlugin (ncpSpec cr) <> None ->
  nodeInfoProvider catalog = Some nodeInfo ->
  stateSriovDp.getManifestObjects s cr nodeInfo (record CallGetNodeInfoProvider w)
  = (Returned (objs, None), w1) ->
  objs <> [] ->
  stateSriovDp.Sync m s (DynNicClusterPolicy (Some cr)) (Some catalog) w =
  match createOrUpdateObjs m s (stateSriovDp.setControllerReference s cr) objs w1 with
  | (Some e, w2) =>
    (Returned (SyncStateNotReady, Some (ErrWrap e "failed to create/update objects")), w2)
  | (None, w2) =>
    match getSyncState m s objs w2 with
    | ((_, Some e), w3) =>
      (Returned (SyncStateNotReady, Some (ErrWrap e "failed to get sync state")), w3)
    | ((syncState, None), w3) => (Returned (syncState, None), w3)
    end
  end.
Proof.
  intros Hplugin Hprovider Hrender Hobjs.
  rewrite (sriov_Sync_enter m s cr catalog nodeInfo w Hplugin Hprovider).
  rewrite (bind_returned _ _ _ _ _ Hrender).
  destruct objs as [|first rest]; [done|].
  go_step. rewrite bind_call.
  destruct (createOrUpdateObjs m s _ _ w1) as [[e|] w2]; [reflexivity|].
  cbn [fst snd notNil]. rewrite bind_call.
  by destruct (getSyncState m s _ w2) as [[syncState [e|]] w3].
Qed.

(** ** Apply failures *)

(** C6. Whenever the create-or-update application of the rendered objects
    fails, for whatever reason the apply step reports, [Sync] returns
    NotReady, not Error, together with the non-nil error wrapping the cause;
    this holds in both states. *)
Theorem apply_failure_is_not_ready (m : stateSkelMethods) (s : stateSkel)
    (w w1 w2 : World) (objs : list Unstructured) (e : err) :
  (forall (cr : HostDeviceNetwork) (cat : option InfoCatalog) first rest,
     stateHostDeviceNetwork.getManifestObjects s cr w = (Returned (objs, None), w1) ->
     objs = first :: rest ->
     GetKind first = "NetworkAttachmentDefinition" ->
     createOrUpdateObjs m s (stateHostDeviceNetwork.setControllerReference s cr) objs w1
     = (Some e, w2) ->
     stateHostDeviceNetwork.Sync m s (DynHostDeviceNetwork (Some cr)) cat w
     = (Returned (SyncStateNotReady, Some (ErrWrap e "failed to create/update objects")),
        w2)) /\
  (forall (cr : NicClusterPolicy) (catalog : InfoCatalog) (nodeInfo : Provider),
     SriovDevicePlugin (ncpSpec cr) <> None ->
     nodeInfoProvider catalog = Some nodeInfo ->
     stateSriovDp.getManifestObjects s cr nodeInfo (record CallGetNodeInfoProvider w)
     = (Returned (objs, None), w1) ->
     objs <> [] ->
     createOrUpdateObjs m s (stateSriovDp.setControllerReference s cr) objs w1
     = (Some e, w2) ->
     stateSriovDp.Sync m s (DynNicClusterPolicy (Some cr)) (Some catalog) w
     = (Returned (SyncStateNotReady, Some (ErrWrap e "failed to create/update objects")),
        w2)).
Proof.
  split.
  - intros cr cat first rest Hrender -> Hkind Happly.
    by rewrite (hdn_Sync_apply m s cr cat w w1 first rest Hrender Hkind), Happly.
  - intros cr catalog nodeInfo Hplugin Hprovider Hrender Hobjs Happly.
    by rewrite (sriov_Sync_apply m s cr catalog nodeInfo w w1 objs
                  Hplugin Hprovider Hrender Hobjs), Happly.
Qed.

Lemma apply_failure_is_not_ready_witness :
  (exists e w2,
     stateHostDeviceNetwork.Sync specSkel
       (skel readOnly (rendering [netAttDef]) "state-host-device-network")
       (DynHostDeviceNetwork (Some hostDeviceNetwork)) None emptyWorld
     = (Returned (SyncStateNotReady, Some (ErrWrap e "failed to create/update objects")),
        w2)) /\
  (exists e w2,
     stateSriovDp.Sync specSkel
       (skel readOnly (rendering [daemonSet]) "state-SRIOV-device-plugin")
       (DynNicClusterPolicy (Some nicClusterPolicy))
       (Some (catalogOf [node "node-1" "ubuntu"])) emptyWorld
     = (Returned (SyncStateNotReady, Some (ErrWrap e "failed to create/update objects")),
        w2)).
Proof.
  split; do 2 eexists.
  - eapply (proj1 (apply_failure_is_not_ready specSkel _ emptyWorld _ _ [netAttDef] _)
              hostDeviceNetwork None netAttDef []); reflexivity.
  - eapply (proj2 (apply_failure_is_not_ready specSkel _ emptyWorld _ _ [daemonSet] _)
              nicClusterPolicy (catalogOf [node "node-1" "ubuntu"])).
    + discriminate.
    + reflexivity.
    + reflexivity.
    + discriminate.
    + reflexivity.
Defined.

(** ** Observation failures *)

(** C5, as stated, fails: the apply step succeeds, the status read after it
    fails, and [Sync] returns NotReady, not Error. *)
Lemma status_read_failure_is_not_error :
  let s := skel unreadableAfterApply (rendering [netAttDef]) "state-host-device-network" in
  let w1 := snd (stateHostDeviceNetwork.getManifestObjects s hostDeviceNetwork emptyWorld) in
  let applied :=
    skelCreateOrUpdateObjs s
      (stateHostDeviceNetwork.setControllerReference s hostDeviceNetwork) [netAttDef] w1 in
  fst applied = None /\
  snd (fst (skelGetSyncState s [netAttDef] (snd applied))) <> None /\
  fst (stateHostDeviceNetwork.Sync specSkel s
         (DynHostDeviceNetwork (Some hostDeviceNetwork)) None emptyWorld)
  = Returned
      (SyncStateNotReady,
       Some (ErrWrap
               (ErrWrap (ErrNew "the server is currently unable to handle the request")
                  "failed to get object")
               "failed to get sync state")).
Proof. split; [reflexivity|]. split; [discriminate | reflexivity]. Qed.

(** C5, amended. After a successful apply, a failing post-apply status read
    ([getSyncState]) makes [Sync] return NotReady with the wrapped error, in
    both states; in the HostDeviceNetwork state, once the status read has
    succeeded, a failure to re-read the primary object (such as its not being
    found) makes [Sync] return Error with the wrapped error. *)
Theorem observation_failure_verdicts (m : stateSkelMethods) (s : stateSkel)
    (w w1 w2 w3 : World) (objs : list Unstructured) (st : SyncState) (e : err) :
  (forall (cr : HostDeviceNetwork) (cat : option InfoCatalog) first rest,
     stateHostDeviceNetwork.getManifestObjects s cr w = (Returned (objs, None), w1) ->
     objs = first :: rest ->
     GetKind first = "NetworkAttachmentDefinition" ->
     createOrUpdateObjs m s (stateHostDeviceNetwork.setControllerReference s cr) objs w1
     = (None, w2) ->
     (getSyncState m s objs w2 = ((st, Some e), w3) ->
      stateHostDeviceNetwork.Sync m s (DynHostDeviceNetwork (Some cr)) cat w
      = (Returned (SyncStateNotReady, Some (ErrWrap e "failed to get sync state")), w3)) /\
     (forall w4,
        getSyncState m s objs w2 = ((st, None), w3) ->
        getObj m s first w3 = (Some e, w4) ->
        stateHostDeviceNetwork.Sync m s (DynHostDeviceNetwork (Some cr)) cat w
        = (Returned (SyncStateError,
                     Some (ErrWrap e "failed to get NetworkAttachmentDefinition")), w4))) /\
  (forall (cr : NicClusterPolicy) (catalog : InfoCatalog) (nodeInfo : Provider),
     SriovDevicePlugin (ncpSpec cr) <> None ->
     nodeInfoProvider catalog = Some nodeInfo ->
     stateSriovDp.getManifestObjects s cr nodeInfo (record CallGetNodeInfoProvider w)
     = (Returned (objs, None), w1) ->
     objs <> [] ->
     createOrUpdateObjs m s (stateSriovDp.setControllerReference s cr) objs w1
     = (None, w2) ->
     getSyncState m s objs w2 = ((st, Some e), w3) ->
     stateSriovDp.Sync m s (DynNicClusterPolicy (Some cr)) (Some catalog) w
     = (Returned (SyncStateNotReady, Some (ErrWrap e "failed to get sync state")), w3)).
Proof.
  split.
  - intros cr cat first rest Hrender -> Hkind Happly.
    rewrite (hdn_Sync_apply m s cr cat w w1 first rest Hrender Hkind), Happly.
    split.
    + by intros ->.
    + by intros w4 -> ->.
  - intros cr catalog nodeInfo Hplugin Hprovider Hrender Hobjs Happly Hstatus.
    by rewrite (sriov_Sync_apply m s cr catalog nodeInfo w w1 objs
                  Hplugin Hprovider Hrender Hobjs), Happly, Hstatus.
Qed.

Lemma observation_failure_verdicts_witness :
  (exists e w3,
     stateHostDeviceNetwork.Sync specSkel
       (skel unreadableAfterApply (rendering [netAttDef]) "state-host-device-network")
       (DynHostDeviceNetwork (Some hostDeviceNetwork)) None emptyWorld
     = (Returned (SyncStateNotReady, Some (ErrWrap e "failed to get sync state")), w3)) /\
  (exists e w4,
     stateHostDeviceNetwork.Sync specSkel
       (skel throttled (rendering [netAttDef]) "state-host-device-network")
       (DynHostDeviceNetwork (Some hostDeviceNetwork)) None emptyWorld
     = (Returned (SyncStateError,
                  Some (ErrWrap e "failed to get NetworkAttachmentDefinition")), w4)) /\
  (exists e w3,
     stateSriovDp.Sync specSkel
       (skel unreadableAfterApply (rendering [daemonSet]) "state-SRIOV-device-plugin")
       (DynNicClusterPolicy (Some nicClusterPolicy))
       (Some (catalogOf [node "node-1" "ubuntu"])) emptyWorld
     = (Returned (SyncStateNotReady, Some (ErrWrap e "failed to get sync state")), w3)).
Proof.
  split; [|split]; do 2 eexists.
  - refine (proj1 (proj1 (observation_failure_verdicts specSkel
                            (skel unreadableAfterApply (rendering [netAttDef])
                               "state-host-device-network")
                            emptyWorld _ _ _ [netAttDef] SyncStateError _)
                     hostDeviceNetwork None netAttDef [] eq_refl eq_refl eq_refl eq_refl)
              eq_refl).
  - refine (proj2 (proj1 (observation_failure_verdicts specSkel
                            (skel throttled (rendering [netAttDef])
                               "state-host-device-network")
                            emptyWorld _ _ _ [netAttDef] SyncStateReady _)
                     hostDeviceNetwork None netAttDef [] eq_refl eq_refl eq_refl eq_refl)
              _ eq_refl eq_refl).
  - refine (proj2 (observation_failure_verdicts specSkel
                     (skel unreadableAfterApply (rendering [daemonSet])
                        "state-SRIOV-device-plugin")
                     emptyWorld _ _ _ [daemonSet] SyncStateError _)
              nicClusterPolicy (catalogOf [node "node-1" "ubuntu"]) _
              _ eq_refl eq_refl _ eq_refl eq_refl); discriminate.
Defined.

(** ** Failure of the ownership-stamping hook *)

Lemma skelCreateOrUpdateObjs_app (s : stateSkel)
    (mutate : Unstructured -> Unstructured * error) (pre post : list Unstructured)
    (w : World) :
  skelCreateOrUpdateObjs s mutate (pre ++ post) w =
  match skelCreateOrUpdateObjs s mutate pre w with
  | (Some e, w') => (Some e, w')
  | (None, w') => skelCreateOrUpdateObjs s mutate post w'
  end.
Proof.
  revert w. induction pre as [|obj pre IH]; intros w; [reflexivity|].
  simpl. destruct (mutate obj) as [desired [e|]]; [reflexivity|].
  cbn [notNil].
  destruct (Get (client s) (keyOf desired) w) as [found w1].
  destruct (match found with
            | GetFound _ => Update (client s) desired w1
            | GetNotFound => Create (client s) desired w1
            | GetFailed e => (Some e, w1)
            end) as [[e|] w2]; [reflexivity|].
  cbn [notNil]. apply IH.
Qed.

Lemma skelCreateOrUpdateObjs_hook_fails (s : stateSkel)
    (mutate : Unstructured -> Unstructured * error) (o : Unstructured)
    (post : list Unstructured) (e : err) (w : World) :
  snd (mutate o) = Some e ->
  skelCreateOrUpdateObjs s mutate (o :: post) w = (Some e, w).
Proof. simpl. destruct (mutate o) as [desired err']. simpl. by intros ->. Qed.

(** When the hook fails on an object, the batch ends in an error and the
    world is the one left by the objects before it. *)
Lemma skelCreateOrUpdateObjs_aborts (s : stateSkel)
    (mutate : Unstructured -> Unstructured * error) (pre post : list Unstructured)
    (o : Unstructured) (e : err) (w : World) :
  snd (mutate o) = Some e ->
  exists e',
    skelCreateOrUpdateObjs s mutate (pre ++ o :: post) w
    = (Some e', snd (skelCreateOrUpdateObjs s mutate pre w)) /\
    (fst (skelCreateOrUpdateObjs s mutate pre w) = None -> e' = e).
Proof.
  intros Hfail. rewrite skelCreateOrUpdateObjs_app.
  destruct (skelCreateOrUpdateObjs s mutate pre w) as [[e0|] w'].
  - exists e0. split; [reflexivity | discriminate].
  - exists e. split; [|reflexivity].
    by rewrite (skelCreateOrUpdateObjs_hook_fails s mutate o post e w' Hfail).
Qed.

(** C7, as stated, fails: the hook fails on the second of three rendered
    objects and [Sync] returns NotReady, not Error. *)
Lemma hook_failure_is_not_error :
  let s := skel accepting (rendering [daemonSet; foreignConfigMap; netAttDef])
             "state-SRIOV-device-plugin" in
  snd (stateSriovDp.setControllerReference s nicClusterPolicy foreignConfigMap) <> None /\
  fst (stateSriovDp.Sync specSkel s (DynNicClusterPolicy (Some nicClusterPolicy))
         (Some (catalogOf [node "node-1" "ubuntu"])) emptyWorld)
  = Returned
      (SyncStateNotReady,
       Some (ErrWrap
               (ErrWrap (ErrNew "object is already owned by another controller")
                  "failed to set controller reference for object")
               "failed to create/update objects")).
Proof. split; [discriminate | reflexivity]. Qed.

(** C7, amended. If the ownership-stamping hook fails on some object of the
    rendered sequence, the whole batch is aborted: the world after [Sync] is
    the one left by applying the objects before the failing one, so neither
    that object nor any later one is applied; and [Sync] returns NotReady with
    a non-nil error, which wraps the hook's error when the earlier objects
    were applied without failure. *)
Theorem hook_failure_aborts_batch (s : stateSkel) (w w1 : World)
    (pre post : list Unstructured) (o : Unstructured) (e : err) :
  (forall (cr : HostDeviceNetwork) (cat : option InfoCatalog) first rest,
     stateHostDeviceNetwork.getManifestObjects s cr w
     = (Returned (pre ++ o :: post, None), w1) ->
     pre ++ o :: post = first :: rest ->
     GetKind first = "NetworkAttachmentDefinition" ->
     snd (stateHostDeviceNetwork.setControllerReference s cr o) = Some e ->
     let applied :=
       skelCreateOrUpdateObjs s (stateHostDeviceNetwork.setControllerReference s cr)
         pre w1 in
     exists e',
       stateHostDeviceNetwork.Sync specSkel s (DynHostDeviceNetwork (Some cr)) cat w
       = (Returned (SyncStateNotReady, Some (ErrWrap e' "failed to create/update objects")),
          snd applied) /\
       (fst applied = None -> e' = e)) /\
  (forall (cr : NicClusterPolicy) (catalog : InfoCatalog) (nodeInfo : Provider),
     SriovDevicePlugin (ncpSpec cr) <> None ->
     nodeInfoProvider catalog = Some nodeInfo ->
     stateSriovDp.getManifestObjects s cr nodeInfo (record CallGetNodeInfoProvider w)
     = (Returned (pre ++ o :: post, None), w1) ->
     snd (stateSriovDp.setControllerReference s cr o) = Some e ->
     let applied :=
       skelCreateOrUpdateObjs s (stateSriovDp.setControllerReference s cr) pre w1 in
     exists e',
       stateSriovDp.Sync specSkel s (DynNicClusterPolicy (Some cr)) (Some catalog) w
       = (Returned (SyncStateNotReady, Some (ErrWrap e' "failed to create/update objects")),
          snd applied) /\
       (fst applied = None -> e' = e)).
Proof.
  split.
  - intros cr cat first rest Hrender Hobjs Hkind Hfail applied.
    destruct (skelCreateOrUpdateObjs_aborts s
                (stateHostDeviceNetwork.setControllerReference s cr) pre post o e w1 Hfail)
      as (e' & Happly & He').
    exists e'. split; [|exact He'].
    rewrite Hobjs in Hrender, Happly.
    rewrite (hdn_Sync_apply specSkel s cr cat w w1 first rest Hrender Hkind).
    cbn [createOrUpdateObjs specSkel]. by rewrite Happly.
  - intros cr catalog nodeInfo Hplugin Hprovider Hrender Hfail applied.
    destruct (skelCreateOrUpdateObjs_aborts s
                (stateSriovDp.setControllerReference s cr) pre post o e w1 Hfail)
      as (e' & Happly & He').
    exists e'. split; [|exact He'].
    rewrite (sriov_Sync_apply specSkel s cr catalog nodeInfo w w1 (pre ++ o :: post)
               Hplugin Hprovider Hrender); [|by destruct pre].
    cbn [createOrUpdateObjs specSkel]. by rewrite Happly.
Qed.

Lemma hook_failure_aborts_batch_witness :
  (let s := skel accepting (rendering [netAttDef; foreignConfigMap; daemonSet])
              "state-host-device-network" in
   let applied :=
     skelCreateOrUpdateObjs s
       (stateHostDeviceNetwork.setControllerReference s hostDeviceNetwork) [netAttDef]
       (record (CallRenderObjects
                  (DataHostDevice (stateHostDeviceNetwork.renderData hostDeviceNetwork)))
          emptyWorld) in
   exists e',
     stateHostDeviceNetwork.Sync specSkel s
       (DynHostDeviceNetwork (Some hostDeviceNetwork)) None emptyWorld
     = (Returned (SyncStateNotReady, Some (ErrWrap e' "failed to create/update objects")),
        snd applied) /\
     (fst applied = None ->
      e' = ErrWrap (ErrNew "object is already owned by another controller")
             "failed to set controller reference for object")) /\
  (let s := skel accepting (rendering [daemonSet; foreignConfigMap; netAttDef])
              "state-SRIOV-device-plugin" in
   let applied :=
     skelCreateOrUpdateObjs s
       (stateSriovDp.setControllerReference s nicClusterPolicy) [daemonSet]
       (snd (stateSriovDp.getManifestObjects s nicClusterPolicy
               {| nodesAttributes := fun _ => [node "node-1" "ubuntu"] |}
               (record CallGetNodeInfoProvider emptyWorld))) in
   exists e',
     stateSriovDp.Sync specSkel s (DynNicClusterPolicy (Some nicClusterPolicy))
       (Some (catalogOf [node "node-1" "ubuntu"])) emptyWorld
     = (Returned (SyncStateNotReady, Some (ErrWrap e' "failed to create/update objects")),
        snd applied) /\
     (fst applied = None ->
      e' = ErrWrap (ErrNew "object is already owned by another controller")
             "failed to set controller reference for object")).
Proof.
  split.
  - refine (proj1 (hook_failure_aborts_batch
                     (skel accepting (rendering [netAttDef; foreignConfigMap; daemonSet])
                        "state-host-device-network")
                     emptyWorld _ [netAttDef] [daemonSet] foreignConfigMap _)
              hostDeviceNetwork None netAttDef [foreignConfigMap; daemonSet]
              eq_refl eq_refl eq_refl eq_refl).
  - refine (proj2 (hook_failure_aborts_batch
                     (skel accepting (rendering [daemonSet; foreignConfigMap; netAttDef])
                        "state-SRIOV-device-plugin")
                     emptyWorld _ [daemonSet] [netAttDef] foreignConfigMap _)
              nicClusterPolicy (catalogOf [node "node-1" "ubuntu"]) _
              _ eq_refl eq_refl eq_refl).
    discriminate.
Defined.

(** ** Panics *)






(** * Further properties of the two states *)

(** ** Render failures and missing collaborators *)

Lemma hdn_Sync_render_failure (m : stateSkelMethods) (s : stateSkel)
    (cr : HostDeviceNetwork) (cat : option InfoCatalog) (w : World)
    (objs : list Unstructured) (e : err) :
  renderObjects (renderer s) (DataHostDevice (stateHostDeviceNetwork.renderData cr))
  = (objs, Some e) ->
  stateHostDeviceNetwork.Sync m s (DynHostDeviceNetwork (Some cr)) cat w
  = (Returned (SyncStateError,
               Some (ErrWrap (ErrWrap e "failed to render objects")
                       "failed to render HostDeviceNetwork")),
     record (CallRenderObjects (DataHostDevice (stateHostDeviceNetwork.renderData cr))) w).
Proof.
  intros Hrender.
  rewrite hdn_Sync_enter.
  rewrite (bind_returned _ _ _ _ _ (hdn_getManifestObjects_run s cr w)).
  rewrite Hrender. reflexivity.
Qed.

Lemma sriov_Sync_no_provider (m : stateSkelMethods) (s : stateSkel)
    (cr : NicClusterPolicy) (catalog : InfoCatalog) (w : World) :
  SriovDevicePlugin (ncpSpec cr) <> None ->
  nodeInfoProvider catalog = None ->
  stateSriovDp.Sync m s (DynNicClusterPolicy (Some cr)) (Some catalog) w
  = (Returned (SyncStateError,
               errors_New "unexpected state, catalog does not provide node information"),
     record CallGetNodeInfoProvider w).
Proof.
  intros Hplugin Hprovider. unfold stateSriovDp.Sync.
  change (assertNicClusterPolicy (DynNicClusterPolicy (Some cr))) with (ret (Some cr)).
  rewrite bind_ret. change (deref (Some cr)) with (ret cr). rewrite bind_ret.
  rewrite bool_decide_eq_false_2 by exact Hplugin.
  change (deref (Some catalog)) with (ret catalog). rewrite bind_ret, bind_call.
  simpl. by rewrite Hprovider.
Qed.

Lemma sriov_Sync_nil_catalog (m : stateSkelMethods) (s : stateSkel)
    (cr : NicClusterPolicy) (w : World) :
  SriovDevicePlugin (ncpSpec cr) <> None ->
  stateSriovDp.Sync m s (DynNicClusterPolicy (Some cr)) None w
  = (Panicked PanicNilDereference, w).
Proof.
  intros Hplugin. unfold stateSriovDp.Sync.
  change (assertNicClusterPolicy (DynNicClusterPolicy (Some cr))) with (ret (Some cr)).
  rewrite bind_ret. change (deref (Some cr)) with (ret cr). rewrite bind_ret.
  by rewrite bool_decide_eq_false_2 by exact Hplugin.
Qed.

Lemma sriov_Sync_rendered (m : stateSkelMethods) (s : stateSkel) (cr : NicClusterPolicy)
    (catalog : InfoCatalog) (nodeInfo : Provider) (w w1 : World)
    (objs : list Unstructured) (err' : error) :
  SriovDevicePlugin (ncpSpec cr) <> None ->
  nodeInfoProvider catalog = Some nodeInfo ->
  stateSriovDp.getManifestObjects s cr nodeInfo (record CallGetNodeInfoProvider w)
  = (Returned (objs, err'), w1) ->
  (forall e, err' = Some e ->
     stateSriovDp.Sync m s (DynNicClusterPolicy (Some cr)) (Some catalog) w
     = (Returned (SyncStateNotReady,
                  Some (ErrWrap e "failed to create k8s objects from manifest")), w1)) /\
  (err' = None -> objs = [] ->
     stateSriovDp.Sync m s (DynNicClusterPolicy (Some cr)) (Some catalog) w
     = (Returned (SyncStateNotReady, None), w1)).
Proof.
  intros Hplugin Hprovider Hrender.
  rewrite (sriov_Sync_enter m s cr catalog nodeInfo w Hplugin Hprovider).
  rewrite (bind_returned _ _ _ _ _ Hrender).
  split.
  - by intros e ->.
  - by intros -> ->.
Qed.

(** X1. In the HostDeviceNetwork state a render failure makes [Sync] return
    Error with the cause wrapped twice, and the only call made is the one to
    the renderer: the cluster is left as it was. *)
Theorem hdn_render_failure_is_error (m : stateSkelMethods) (s : stateSkel)
    (cr : HostDeviceNetwork) (cat : option InfoCatalog) (w : World)
    (objs : list Unstructured) (e : err) :
  renderObjects (renderer s) (DataHostDevice (stateHostDeviceNetwork.renderData cr))
  = (objs, Some e) ->
  exists w',
    stateHostDeviceNetwork.Sync m s (DynHostDeviceNetwork (Some cr)) cat w
    = (Returned (SyncStateError,
                 Some (ErrWrap (ErrWrap e "failed to render objects")
                         "failed to render HostDeviceNetwork")), w') /\
    cluster w' = cluster w /\
    calls w' = calls w ++
      [CallRenderObjects (DataHostDevice (stateHostDeviceNetwork.renderData cr))].
Proof.
  intros Hrender. eexists. split.
  - apply (hdn_Sync_render_failure m s cr cat w objs e Hrender).
  - split; reflexivity.
Qed.

Lemma hdn_render_failure_is_error_witness :
  exists w',
    stateHostDeviceNetwork.Sync specSkel (skel accepting failing "state-host-device-network")
      (DynHostDeviceNetwork (Some hostDeviceNetwork)) None emptyWorld
    = (Returned (SyncStateError,
                 Some (ErrWrap (ErrWrap (ErrNew "template: unexpected end of input")
                                  "failed to render objects")
                         "failed to render HostDeviceNetwork")), w') /\
    cluster w' = cluster emptyWorld /\
    calls w' = calls emptyWorld ++
      [CallRenderObjects
         (DataHostDevice (stateHostDeviceNetwork.renderData hostDeviceNetwork))].
Proof.
  apply (hdn_render_failure_is_error specSkel (skel accepting failing _)
           hostDeviceNetwork None emptyWorld []).
  reflexivity.
Defined.

(** X2. In the SR-IOV device plugin state a render failure makes [Sync]
    return NotReady, not Error, with the cause wrapped twice; the calls made
    are the two catalog queries and the render call, and the cluster is left
    as it was. *)
Theorem sriov_render_failure_is_not_ready (m : stateSkelMethods) (s : stateSkel)
    (cr : NicClusterPolicy) (catalog : InfoCatalog) (nodeInfo : Provider) (w : World)
    (d : sriovDpManifestRenderData) (objs : list Unstructured) (e : err) :
  SriovDevicePlugin (ncpSpec cr) <> None ->
  nodeInfoProvider catalog = Some nodeInfo ->
  fst (stateSriovDp.renderData cr
         (nodesAttributes nodeInfo stateSriovDp.nicNodeFilters) w) = Returned d ->
  renderObjects (renderer s) (DataSriovDp d) = (objs, Some e) ->
  exists w',
    stateSriovDp.Sync m s (DynNicClusterPolicy (Some cr)) (Some catalog) w
    = (Returned (SyncStateNotReady,
                 Some (ErrWrap (ErrWrap e "failed to render objects")
                         "failed to create k8s objects from manifest")), w') /\
    cluster w' = cluster w /\
    calls w' = calls w ++
      [CallGetNodeInfoProvider;
       CallGetNodesAttributes stateSriovDp.nicNodeFilters;
       CallRenderObjects (DataSriovDp d)].
Proof.
  intros Hplugin Hprovider Hd Hrender.
  assert (stateSriovDp.getManifestObjects s cr nodeInfo (record CallGetNodeInfoProvider w)
          = (Returned ([], Some (ErrWrap e "failed to render objects")),
             record (CallRenderObjects (DataSriovDp d))
               (record (CallGetNodesAttributes stateSriovDp.nicNodeFilters)
                  (record CallGetNodeInfoProvider w)))) as Hrun.
  { erewrite (sriov_getManifestObjects_run s cr nodeInfo _ d); [by rewrite Hrender|done|].
    rewrite <- Hd. apply sriov_renderData_world. }
  eexists. split.
  - apply (proj1 (sriov_Sync_rendered m s cr catalog nodeInfo w _ _ _
                    Hplugin Hprovider Hrun)).
    reflexivity.
  - split; [reflexivity|]. simpl. by rewrite <- !app_assoc.
Qed.

Lemma sriov_render_failure_is_not_ready_witness :
  exists d w',
    stateSriovDp.Sync specSkel (skel accepting failing "state-SRIOV-device-plugin")
      (DynNicClusterPolicy (Some nicClusterPolicy))
      (Some (catalogOf [node "node-1" "ubuntu"])) emptyWorld
    = (Returned (SyncStateNotReady,
                 Some (ErrWrap (ErrWrap (ErrNew "template: unexpected end of input")
                                  "failed to render objects")
                         "failed to create k8s objects from manifest")), w') /\
    cluster w' = cluster emptyWorld /\
    calls w' = calls emptyWorld ++
      [CallGetNodeInfoProvider;
       CallGetNodesAttributes stateSriovDp.nicNodeFilters;
       CallRenderObjects (DataSriovDp d)].
Proof.
  eexists.
  refine (sriov_render_failure_is_not_ready specSkel (skel accepting failing _)
            nicClusterPolicy (catalogOf [node "node-1" "ubuntu"]) _ emptyWorld _ [] _
            _ eq_refl eq_refl eq_refl).
  discriminate.
Defined.

(** X3. In the SR-IOV device plugin state, when the sub-spec is set and the
    catalog holds no node-info provider, [Sync] returns Error with a new
    error; the only call made is the query for the provider, so no node
    attributes are read, nothing is rendered and nothing is applied. *)
Theorem sriov_missing_provider_is_error (m : stateSkelMethods) (s : stateSkel)
    (cr : NicClusterPolicy) (catalog : InfoCatalog) (w : World) :
  SriovDevicePlugin (ncpSpec cr) <> None ->
  nodeInfoProvider catalog = None ->
  exists w',
    stateSriovDp.Sync m s (DynNicClusterPolicy (Some cr)) (Some catalog) w
    = (Returned (SyncStateError,
                 Some (ErrNew "unexpected state, catalog does not provide node information")),
       w') /\
    cluster w' = cluster w /\
    calls w' = calls w ++ [CallGetNodeInfoProvider].
Proof.
  intros Hplugin Hprovider. eexists. split.
  - apply (sriov_Sync_no_provider m s cr catalog w Hplugin Hprovider).
  - split; reflexivity.
Qed.

Lemma sriov_missing_provider_is_error_witness :
  exists w',
    stateSriovDp.Sync specSkel
      (skel accepting (rendering [daemonSet]) "state-SRIOV-device-plugin")
      (DynNicClusterPolicy (Some nicClusterPolicy)) (Some catalogWithoutProvider) emptyWorld
    = (Returned (SyncStateError,
                 Some (ErrNew "unexpected state, catalog does not provide node information")),
       w') /\
    cluster w' = cluster emptyWorld /\
    calls w' = calls emptyWorld ++ [CallGetNodeInfoProvider].
Proof.
  apply (sriov_missing_provider_is_error specSkel _ nicClusterPolicy catalogWithoutProvider).
  - discriminate.
  - reflexivity.
Defined.

(** ** A refused render result is never applied *)

(** X4. In the HostDeviceNetwork state, a render result without objects, or
    whose first object is not a NetworkAttachmentDefinition, is refused
    before the apply step: the only call made is the one to the renderer and
    the cluster is left as it was, whatever the other rendered objects are. *)
Theorem hdn_refused_render_applies_nothing (m : stateSkelMethods) (s : stateSkel)
    (cr : HostDeviceNetwork) (cat : option InfoCatalog) (w : World)
    (objs : list Unstructured) :
  renderObjects (renderer s) (DataHostDevice (stateHostDeviceNetwork.renderData cr))
  = (objs, None) ->
  (forall first, head objs = Some first -> GetKind first <> "NetworkAttachmentDefinition") ->
  cluster (snd (stateHostDeviceNetwork.Sync m s (DynHostDeviceNetwork (Some cr)) cat w))
  = cluster w /\
  calls (snd (stateHostDeviceNetwork.Sync m s (DynHostDeviceNetwork (Some cr)) cat w))
  = calls w ++ [CallRenderObjects (DataHostDevice (stateHostDeviceNetwork.renderData cr))].
Proof.
  intros Hrender Hhead.
  rewrite (hdn_Sync_refused_render m s cr cat w objs Hrender); [by split|].
  destruct objs as [|first rest]; [by left|].
  right. exists first, rest. split; [reflexivity|]. by apply Hhead.
Qed.

Lemma hdn_refused_render_applies_nothing_witness :
  let s := skel accepting (rendering [daemonSet; netAttDef]) "state-host-device-network" in
  let r := stateHostDeviceNetwork.Sync specSkel s
             (DynHostDeviceNetwork (Some hostDeviceNetwork)) None emptyWorld in
  cluster (snd r) = cluster emptyWorld /\
  calls (snd r)
  = calls emptyWorld ++
    [CallRenderObjects (DataHostDevice (stateHostDeviceNetwork.renderData hostDeviceNetwork))].
Proof.
  apply (hdn_refused_render_applies_nothing specSkel
           (skel accepting (rendering [daemonSet; netAttDef]) "state-host-device-network")
           hostDeviceNetwork None emptyWorld [daemonSet; netAttDef]).
  - reflexivity.
  - intros first [= <-]. vm_compute. discriminate.
Defined.

(** ** The verdict of a successful pass *)

(** X5. When the apply step and the status read succeed (and, in the
    HostDeviceNetwork state, the primary object is read back), [Sync] returns
    the verdict computed by [getSyncState] unchanged, with a nil error. *)
Theorem sync_passes_status_verdict (m : stateSkelMethods) (s : stateSkel)
    (w w1 w2 w3 : World) (objs : list Unstructured) (st : SyncState) :
  (forall (cr : HostDeviceNetwork) (cat : option InfoCatalog) first rest w4,
     stateHostDeviceNetwork.getManifestObjects s cr w = (Returned (objs, None), w1) ->
     objs = first :: rest ->
     GetKind first = "NetworkAttachmentDefinition" ->
     createOrUpdateObjs m s (stateHostDeviceNetwork.setControllerReference s cr) objs w1
     = (None, w2) ->
     getSyncState m s objs w2 = ((st, None), w3) ->
     getObj m s first w3 = (None, w4) ->
     stateHostDeviceNetwork.Sync m s (DynHostDeviceNetwork (Some cr)) cat w
     = (Returned (st, None), w4)) /\
  (forall (cr : NicClusterPolicy) (catalog : InfoCatalog) (nodeInfo : Provider),
     SriovDevicePlugin (ncpSpec cr) <> None ->
     nodeInfoProvider catalog = Some nodeInfo ->
     stateSriovDp.getManifestObjects s cr nodeInfo (record CallGetNodeInfoProvider w)
     = (Returned (objs, None), w1) ->
     objs <> [] ->
     createOrUpdateObjs m s (stateSriovDp.setControllerReference s cr) objs w1
     = (None, w2) ->
     getSyncState m s objs w2 = ((st, None), w3) ->
     stateSriovDp.Sync m s (DynNicClusterPolicy (Some cr)) (Some catalog) w
     = (Returned (st, None), w3)).
Proof.
  split.
  - intros cr cat first rest w4 Hrender -> Hkind Happly Hstatus Hget.
    by rewrite (hdn_Sync_apply m s cr cat w w1 first rest Hrender Hkind),
      Happly, Hstatus, Hget.
  - intros cr catalog nodeInfo Hplugin Hprovider Hrender Hobjs Happly Hstatus.
    by rewrite (sriov_Sync_apply m s cr catalog nodeInfo w w1 objs
                  Hplugin Hprovider Hrender Hobjs), Happly, Hstatus.
Qed.

Lemma sync_passes_status_verdict_witness :
  (exists w4,
     stateHostDeviceNetwork.Sync specSkel
       (skel accepting (rendering [netAttDef]) "state-host-device-network")
       (DynHostDeviceNetwork (Some hostDeviceNetwork)) None emptyWorld
     = (Returned (SyncStateReady, None), w4)) /\
  (exists w3,
     stateSriovDp.Sync specSkel
       (skel accepting (rendering [daemonSet]) "state-SRIOV-device-plugin")
       (DynNicClusterPolicy (Some nicClusterPolicy))
       (Some (catalogOf [node "node-1" "ubuntu"])) emptyWorld
     = (Returned (SyncStateReady, None), w3)).
Proof.
  split; eexists.
  - refine (proj1 (sync_passes_status_verdict specSkel
                     (skel accepting (rendering [netAttDef]) "state-host-device-network")
                     emptyWorld _ _ _ [netAttDef] SyncStateReady)
              hostDeviceNetwork None netAttDef [] _
              eq_refl eq_refl eq_refl eq_refl eq_refl eq_refl).
  - refine (proj2 (sync_passes_status_verdict specSkel
                     (skel accepting (rendering [daemonSet]) "state-SRIOV-device-plugin")
                     emptyWorld _ _ _ [daemonSet] SyncStateReady)
              nicClusterPolicy (catalogOf [node "node-1" "ubuntu"]) _
              _ eq_refl eq_refl _ eq_refl eq_refl); discriminate.
Defined.

(** ** Verdicts and errors *)

Lemma hdn_Sync_error_verdict (m : stateSkelMethods) (s : stateSkel)
    (v : dynval) (cat : option InfoCatalog) (w : World) (st : SyncState) (e : err) :
  fst (stateHostDeviceNetwork.Sync m s v cat w) = Returned (st, Some e) ->
  st = SyncStateNotReady \/ st = SyncStateError.
Proof.
  intros H. destruct v as [|[cr|]|p|t]; try discriminate H.
  pose proof (hdn_getManifestObjects_run s cr w) as Hrun. cbv zeta in Hrun.
  destruct (renderObjects (renderer s)
              (DataHostDevice (stateHostDeviceNetwork.renderData cr)))
    as [objs [e0|]] eqn:Hrender.
  - rewrite (hdn_Sync_render_failure m s cr cat w objs e0 Hrender) in H.
    injection H as <- _. by right.
  - destruct objs as [|first rest].
    + rewrite (hdn_Sync_refused_render m s cr cat w [] Hrender) in H by (by left).
      discriminate H.
    + destruct (decide (GetKind first = "NetworkAttachmentDefinition")) as [Hkind|Hkind].
      * rewrite (hdn_Sync_apply m s cr cat w _ first rest Hrun Hkind) in H.
        destruct (createOrUpdateObjs m s _ _ _) as [[e1|] w2].
        { injection H as <- _. by left. }
        destruct (getSyncState m s _ w2) as [[st' [e2|]] w3].
        { injection H as <- _. by left. }
        destruct (getObj m s first w3) as [[e3|] w4].
        { injection H as <- _. by right. }
        discriminate H.
      * rewrite (hdn_Sync_refused_render m s cr cat w (first :: rest) Hrender) in H
          by (right; eauto).
        discriminate H.
Qed.

Lemma sriov_Sync_error_verdict (m : stateSkelMethods) (s : stateSkel)
    (v : dynval) (cat : option InfoCatalog) (w : World) (st : SyncState) (e : err) :
  fst (stateSriovDp.Sync m s v cat w) = Returned (st, Some e) ->
  st = SyncStateNotReady \/ st = SyncStateError.
Proof.
  intros H. destruct v as [|p|[cr|]|t]; try discriminate H.
  destruct (decide (SriovDevicePlugin (ncpSpec cr) = None)) as [Hnil|Hplugin].
  { rewrite (sriov_Sync_nil_plugin m s cr cat w Hnil) in H. discriminate H. }
  destruct cat as [catalog|].
  2: { rewrite (sriov_Sync_nil_catalog m s cr w Hplugin) in H. discriminate H. }
  destruct (nodeInfoProvider catalog) as [nodeInfo|] eqn:Hprovider.
  2: { rewrite (sriov_Sync_no_provider m s cr catalog w Hplugin Hprovider) in H.
       injection H as <- _. by right. }
  destruct (sriov_getManifestObjects_returns s cr nodeInfo
              (record CallGetNodeInfoProvider w)) as [[objs err'] Hrun].
  destruct (stateSriovDp.getManifestObjects s cr nodeInfo _) as [r w1] eqn:Hrender.
  simpl in Hrun. subst r.
  pose proof (sriov_Sync_rendered m s cr catalog nodeInfo w w1 objs err'
                Hplugin Hprovider Hrender) as [Hfail Hempty].
  destruct err' as [e0|].
  { rewrite (Hfail e0 eq_refl) in H. injection H as <- _. by left. }
  destruct objs as [|first rest].
  { rewrite (Hempty eq_refl eq_refl) in H. discriminate H. }
  rewrite (sriov_Sync_apply m s cr catalog nodeInfo w w1 (first :: rest)
             Hplugin Hprovider Hrender) in H by done.
  destruct (createOrUpdateObjs m s _ _ _) as [[e1|] w2].
  { injection H as <- _. by left. }
  destruct (getSyncState m s _ w2) as [[st' [e2|]] w3].
  { injection H as <- _. by left. }
  discriminate H.
Qed.

(** X6. Whatever the arguments and the skeleton methods are, a [Sync] of
    either state that returns a non-nil error returns it with the verdict
    NotReady or Error: Ready and Ignore always come with a nil error. *)
Theorem sync_error_comes_with_failure_verdict (m : stateSkelMethods) (s : stateSkel)
    (v : dynval) (cat : option InfoCatalog) (w : World) (st : SyncState) (e : err) :
  fst (stateHostDeviceNetwork.Sync m s v cat w) = Returned (st, Some e) \/
  fst (stateSriovDp.Sync m s v cat w) = Returned (st, Some e) ->
  st = SyncStateNotReady \/ st = SyncStateError.
Proof.
  intros [H|H].
  - exact (hdn_Sync_error_verdict m s v cat w st e H).
  - exact (sriov_Sync_error_verdict m s v cat w st e H).
Qed.

Lemma sync_error_comes_with_failure_verdict_witness :
  let r := stateHostDeviceNetwork.Sync specSkel
             (skel readOnly (rendering [netAttDef]) "state-host-device-network")
             (DynHostDeviceNetwork (Some hostDeviceNetwork)) None emptyWorld in
  fst r = Returned (SyncStateNotReady,
                    Some (ErrWrap (ErrNew "forbidden") "failed to create/update objects")) /\
  (SyncStateNotReady = SyncStateNotReady \/ SyncStateNotReady = SyncStateError).
Proof.
  split; [reflexivity|].
  apply (sync_error_comes_with_failure_verdict specSkel
           (skel readOnly (rendering [netAttDef]) "state-host-device-network")
           (DynHostDeviceNetwork (Some hostDeviceNetwork)) None emptyWorld
           SyncStateNotReady
           (ErrWrap (ErrNew "forbidden") "failed to create/update objects")).
  left. reflexivity.
Defined.

(** X7. The SR-IOV device plugin state returns the Error verdict in two
    situations only: the catalog holds no node-info provider, or the apply
    step and the status read succeeded and [getSyncState] itself reported
    Error.  No failure of rendering, applying or reading is turned into
    Error. *)
Theorem sriov_error_verdict_origin (m : stateSkelMethods) (s : stateSkel)
    (cr : NicClusterPolicy) (cat : option InfoCatalog) (w w' : World) (e : error) :
  stateSriovDp.Sync m s (DynNicClusterPolicy (Some cr)) cat w
  = (Returned (SyncStateError, e), w') ->
  (exists catalog,
     cat = Some catalog /\ nodeInfoProvider catalog = None /\
     e = errors_New "unexpected state, catalog does not provide node information") \/
  (e = None /\
   exists objs w1 w2,
     createOrUpdateObjs m s (stateSriovDp.setControllerReference s cr) objs w1 = (None, w2) /\
     getSyncState m s objs w2 = ((SyncStateError, None), w')).
Proof.
  intros H.
  destruct (decide (SriovDevicePlugin (ncpSpec cr) = None)) as [Hnil|Hplugin].
  { rewrite (sriov_Sync_nil_plugin m s cr cat w Hnil) in H. discriminate H. }
  destruct cat as [catalog|].
  2: { rewrite (sriov_Sync_nil_catalog m s cr w Hplugin) in H. discriminate H. }
  destruct (nodeInfoProvider catalog) as [nodeInfo|] eqn:Hprovider.
  2: { rewrite (sriov_Sync_no_provider m s cr catalog w Hplugin Hprovider) in H.
       injection H as <- _. left. by exists catalog. }
  right.
  destruct (sriov_getManifestObjects_returns s cr nodeInfo
              (record CallGetNodeInfoProvider w)) as [[objs err'] Hrun].
  destruct (stateSriovDp.getManifestObjects s cr nodeInfo _) as [r w1] eqn:Hrender.
  simpl in Hrun. subst r.
  pose proof (sriov_Sync_rendered m s cr catalog nodeInfo w w1 objs err'
                Hplugin Hprovider Hrender) as [Hfail Hempty].
  destruct err' as [e0|].
  { rewrite (Hfail e0 eq_refl) in H. discriminate H. }
  destruct objs as [|first rest].
  { rewrite (Hempty eq_refl eq_refl) in H. discriminate H. }
  rewrite (sriov_Sync_apply m s cr catalog nodeInfo w w1 (first :: rest)
             Hplugin Hprovider Hrender) in H by done.
  destruct (createOrUpdateObjs m s _ _ _) as [[e1|] w2] eqn:Happly; [discriminate H|].
  destruct (getSyncState m s _ w2) as [[st' [e2|]] w3] eqn:Hstatus; [discriminate H|].
  injection H as -> <- ->. split; [reflexivity|].
  by exists (first :: rest), w1, w2.
Qed.

Lemma sriov_error_verdict_origin_witness :
  exists w',
    stateSriovDp.Sync specSkel
      (skel accepting (rendering [daemonSet]) "state-SRIOV-device-plugin")
      (DynNicClusterPolicy (Some nicClusterPolicy)) (Some catalogWithoutProvider) emptyWorld
    = (Returned (SyncStateError,
                 errors_New "unexpected state, catalog does not provide node information"),
       w') /\
    ((exists catalog,
        Some catalogWithoutProvider = Some catalog /\ nodeInfoProvider catalog = None /\
        errors_New "unexpected state, catalog does not provide node information"
        = errors_New "unexpected state, catalog does not provide node information") \/
     (errors_New "unexpected state, catalog does not provide node information" = None /\
      exists objs w1 w2,
        createOrUpdateObjs specSkel
          (skel accepting (rendering [daemonSet]) "state-SRIOV-device-plugin")
          (stateSriovDp.setControllerReference
             (skel accepting (rendering [daemonSet]) "state-SRIOV-device-plugin")
             nicClusterPolicy) objs w1 = (None, w2) /\
        getSyncState specSkel
          (skel accepting (rendering [daemonSet]) "state-SRIOV-device-plugin") objs w2
        = ((SyncStateError, None), w'))).
Proof.
  eexists. split; [reflexivity|].
  apply (sriov_error_verdict_origin specSkel
           (skel accepting (rendering [daemonSet]) "state-SRIOV-device-plugin")
           nicClusterPolicy (Some catalogWithoutProvider) emptyWorld).
  reflexivity.
Defined.

(** ** Nil arguments *)

(** X8. A typed nil pointer passes the type assertion of [Sync] and panics
    on its first dereference, in both states; in the SR-IOV state a nil info
    catalog panics when it is queried, which happens only if the sub-spec is
    set.  In each case no call has been made and the cluster is untouched. *)
Theorem sync_nil_arguments_panic (m : stateSkelMethods) (s : stateSkel)
    (cat : option InfoCatalog) (w : World) :
  stateHostDeviceNetwork.Sync m s (DynHostDeviceNetwork None) cat w
  = (Panicked PanicNilDereference, w) /\
  stateSriovDp.Sync m s (DynNicClusterPolicy None) cat w
  = (Panicked PanicNilDereference, w) /\
  (forall cr,
     SriovDevicePlugin (ncpSpec cr) <> None ->
     stateSriovDp.Sync m s (DynNicClusterPolicy (Some cr)) None w
     = (Panicked PanicNilDereference, w)).
Proof.
  split; [reflexivity|]. split; [reflexivity|].
  intros cr Hplugin. exact (sriov_Sync_nil_catalog m s cr w Hplugin).
Qed.

Lemma sync_nil_arguments_panic_witness :
  stateSriovDp.Sync specSkel
    (skel accepting (rendering [daemonSet]) "state-SRIOV-device-plugin")
    (DynNicClusterPolicy (Some nicClusterPolicy)) None emptyWorld
  = (Panicked PanicNilDereference, emptyWorld).
Proof.
  apply (proj2 (proj2 (sync_nil_arguments_panic specSkel _ None emptyWorld))).
  discriminate.
Defined.

(** ** What [getManifestObjects] hands over *)

(** X9. [getManifestObjects] of the HostDeviceNetwork state makes exactly one
    call, to the renderer, and leaves the cluster alone.  The data it hands
    over carries the name of the custom resource, a resource name that starts
    with [nvidia.com/], and the spec of the custom resource as it is: inside
    the copied spec the resource name is not normalised. *)
Theorem hdn_getManifestObjects_render_call (s : stateSkel) (cr : HostDeviceNetwork)
    (w : World) :
  exists d,
    calls (snd (stateHostDeviceNetwork.getManifestObjects s cr w))
    = calls w ++ [CallRenderObjects (DataHostDevice d)] /\
    cluster (snd (stateHostDeviceNetwork.getManifestObjects s cr w)) = cluster w /\
    HostDeviceNetworkName d = Name (hdnMeta cr) /\
    strings_HasPrefix (hdResourceName d) "nvidia.com/" = true /\
    hdCrSpec d = hdnSpec cr.
Proof.
  exists (stateHostDeviceNetwork.renderData cr).
  rewrite hdn_getManifestObjects_run. cbv zeta.
  repeat split; try reflexivity.
  apply renderData_prefixed.
Qed.

(** X10. In both states [getManifestObjects] returns normally, and it returns
    objects only together with a nil error: when the renderer fails, the
    result is no object at all, whatever the renderer returned beside its
    error, and the error wraps the renderer's with [failed to render
    objects]; when the renderer succeeds, its objects are returned as they
    are. *)
Theorem getManifestObjects_objects_or_error (s : stateSkel) (w : World) :
  (forall (cr : HostDeviceNetwork),
     let data := DataHostDevice (stateHostDeviceNetwork.renderData cr) in
     exists objs err',
       fst (stateHostDeviceNetwork.getManifestObjects s cr w) = Returned (objs, err') /\
       match renderObjects (renderer s) data with
       | (_, Some e) => objs = [] /\ err' = Some (ErrWrap e "failed to render objects")
       | (rendered, None) => objs = rendered /\ err' = None
       end) /\
  (forall (cr : NicClusterPolicy) (nodeInfo : Provider),
     exists objs err',
       fst (stateSriovDp.getManifestObjects s cr nodeInfo w) = Returned (objs, err') /\
       (err' <> None -> objs = []) /\
       (nodesAttributes nodeInfo stateSriovDp.nicNodeFilters = [] ->
        objs = [] /\ err' = None) /\
       (forall d,
          fst (stateSriovDp.renderData cr
                 (nodesAttributes nodeInfo stateSriovDp.nicNodeFilters) w) = Returned d ->
          match renderObjects (renderer s) (DataSriovDp d) with
          | (_, Some e) => objs = [] /\ err' = Some (ErrWrap e "failed to render objects")
          | (rendered, None) => objs = rendered /\ err' = None
          end)).
Proof.
  split.
  - intros cr data. rewrite hdn_getManifestObjects_run. cbv zeta. fold data.
    destruct (renderObjects (renderer s) data) as [rendered [e|]]; by eexists _, _.
  - intros cr nodeInfo.
    destruct (nodesAttributes nodeInfo stateSriovDp.nicNodeFilters)
      as [|first rest] eqn:Hattrs.
    + rewrite (sriov_getManifestObjects_empty s cr nodeInfo w Hattrs).
      exists [], None. repeat split; done.
    + erewrite (sriov_getManifestObjects_run s cr nodeInfo _ _ w Hattrs); [|reflexivity].
      match goal with |- context [DataSriovDp ?d] => set (d0 := d) end.
      destruct (renderObjects (renderer s) (DataSriovDp d0)) as [rendered [e|]] eqn:Hrender.
      * eexists _, _. split; [reflexivity|]. split; [done|]. split; [done|].
        intros d Hd. simpl in Hd. injection Hd as <-. fold d0. by rewrite Hrender.
      * eexists _, _. split; [reflexivity|]. split; [done|]. split; [done|].
        intros d Hd. simpl in Hd. injection Hd as <-. fold d0. by rewrite Hrender.
Qed.

Lemma getManifestObjects_objects_or_error_witness :
  exists objs err',
    fst (stateSriovDp.getManifestObjects
           (skel accepting (rendering [daemonSet]) "state-SRIOV-device-plugin")
           nicClusterPolicy {| nodesAttributes := fun _ => [] |} emptyWorld)
    = Returned (objs, err') /\
    objs = [] /\ err' = None.
Proof.
  destruct (proj2 (getManifestObjects_objects_or_error
                     (skel accepting (rendering [daemonSet]) "state-SRIOV-device-plugin")
                     emptyWorld)
              nicClusterPolicy {| nodesAttributes := fun _ => [] |})
    as (objs & err' & Hrun & _ & Hnone & _).
  exists objs, err'. split; [exact Hrun|]. apply Hnone. reflexivity.
Defined.

(** X11. The render data the SR-IOV device plugin state hands to the
    renderer copies the sub-spec and the node affinity of the custom resource,
    sets the init-container flag exactly when the OFED driver sub-spec is set,
    never fills in the CPU architecture, and has an empty OS name when the
    first node record lacks that attribute, even if a later record has it. *)
Theorem sriov_render_data_fields (s : stateSkel) (cr : NicClusterPolicy)
    (nodeInfo : Provider) (first : NodeAttributes) (rest : list NodeAttributes)
    (w : World) :
  nodesAttributes nodeInfo stateSriovDp.nicNodeFilters = first :: rest ->
  exists d,
    last (calls (snd (stateSriovDp.getManifestObjects s cr nodeInfo w)))
    = Some (CallRenderObjects (DataSriovDp d)) /\
    dpCrSpec d = SriovDevicePlugin (ncpSpec cr) /\
    dpNodeAffinity d = NodeAffinityField (ncpSpec cr) /\
    (DeployInitContainer d = true <-> OFEDDriver (ncpSpec cr) <> None) /\
    CPUArch (dpRuntime d) = "" /\
    (Attributes first !! AttrTypeOSName = None -> OSName (dpRuntime d) = "").
Proof.
  intros Hattrs. eexists. split.
  - erewrite (sriov_getManifestObjects_run s cr nodeInfo _ _ w Hattrs); [|reflexivity].
    simpl. by rewrite last_snoc.
  - simpl. repeat split; try done.
    + intros H. by apply bool_decide_eq_true_1 in H.
    + intros H. by apply bool_decide_eq_true_2.
    + intros Hmissing. unfold mapIndex. by rewrite Hmissing.
Qed.

Lemma sriov_render_data_fields_witness :
  let nodeInfo :=
    {| nodesAttributes := fun _ => [bareNode "node-1"; node "node-2" "rhel"] |} in
  let s := skel accepting (rendering [daemonSet]) "state-SRIOV-device-plugin" in
  exists d,
    last (calls (snd (stateSriovDp.getManifestObjects s nicClusterPolicy nodeInfo emptyWorld)))
    = Some (CallRenderObjects (DataSriovDp d)) /\
    dpCrSpec d = SriovDevicePlugin (ncpSpec nicClusterPolicy) /\
    dpNodeAffinity d = NodeAffinityField (ncpSpec nicClusterPolicy) /\
    (DeployInitContainer d = true <-> OFEDDriver (ncpSpec nicClusterPolicy) <> None) /\
    CPUArch (dpRuntime d) = "" /\
    (Attributes (bareNode "node-1") !! AttrTypeOSName = None -> OSName (dpRuntime d) = "").
Proof.
  intros nodeInfo s.
  apply (sriov_render_data_fields s nicClusterPolicy nodeInfo
           (bareNode "node-1") [node "node-2" "rhel"] emptyWorld).
  reflexivity.
Defined.

(** ** Resource names that meet after normalisation *)

(** X12. Two custom resources are rendered with the same resource name
    exactly when their resource-name fields are equal or one of them is the
    other, unprefixed one, with [nvidia.com/] in front: the builder does not
    keep a bare name apart from its prefixed form. *)
Theorem resource_name_collisions (cr1 cr2 : HostDeviceNetwork) :
  let r1 := ResourceName (hdnSpec cr1) in
  let r2 := ResourceName (hdnSpec cr2) in
  hdResourceName (stateHostDeviceNetwork.renderData cr1)
  = hdResourceName (stateHostDeviceNetwork.renderData cr2) <->
  r1 = r2 \/
  (strings_HasPrefix r2 "nvidia.com/" = false /\ r1 = "nvidia.com/" +:+ r2) \/
  (strings_HasPrefix r1 "nvidia.com/" = false /\ r2 = "nvidia.com/" +:+ r1).
Proof.
  intros r1 r2. unfold stateHostDeviceNetwork.renderData. cbn [hdResourceName].
  fold r1 r2. unfold stateHostDeviceNetwork.resourceNamePrefix.
  pose proof (prefix_append "nvidia.com/" r1) as Hp1.
  pose proof (prefix_append "nvidia.com/" r2) as Hp2.
  unfold strings_HasPrefix in *.
  destruct (String.prefix "nvidia.com/" r1) eqn:E1;
    destruct (String.prefix "nvidia.com/" r2) eqn:E2; cbn [negb].
  - split; [by left|]. intros [H|[[H _]|[H _]]]; [exact H|discriminate H|discriminate H].
  - split.
    + intros H. right. left. by split.
    + intros [H|[[_ H]|[H _]]]; [|exact H|discriminate H].
      rewrite H in E1. rewrite E1 in E2. discriminate E2.
  - split.
    + intros H. right. right. by split.
    + intros [H|[[H _]|[_ H]]]; [|discriminate H|by symmetry].
      rewrite H in E1. rewrite E1 in E2. discriminate E2.
  - split.
    + intros H. left. by apply (String.app_inj "nvidia.com/").
    + intros [H|[[_ H]|[_ H]]].
      * by rewrite H.
      * rewrite H, Hp2 in E1. discriminate E1.
      * rewrite H, Hp1 in E2. discriminate E2.
Qed.

Lemma resource_name_collisions_witness :
  hdResourceName (stateHostDeviceNetwork.renderData hostDeviceNetwork)
  = hdResourceName (stateHostDeviceNetwork.renderData
                      (stateHostDeviceNetwork.withResourceName "nvidia.com/ib0"
                         hostDeviceNetwork)).
Proof.
  apply (resource_name_collisions hostDeviceNetwork
           (stateHostDeviceNetwork.withResourceName "nvidia.com/ib0" hostDeviceNetwork)).
  right. right. split; reflexivity.
Defined.

(** ** Constructors *)

(** X13. Each constructor returns either a state or an error, never both
    and never neither.  It fails exactly when the manifest files cannot be
    listed, with the cause wrapped; otherwise the state holds the client and
    the scheme it was given and the renderer made from the files found. *)
Theorem constructors_state_or_error (env : Manifests) (c : Client) (sch : Scheme)
    (manifestDir : string) :
  let listing := GetFilesWithSuffix env manifestDir (ManifestFileSuffix env) in
  let asListed (r : option stateSkel * error) :=
    (fst r = None <-> snd r <> None) /\
    match snd listing with
    | Some e => r = (None, Some (ErrWrap e "failed to get files from manifest dir"))
    | None =>
      exists st, r = (Some st, None) /\ client st = c /\ scheme st = sch /\
                 renderer st = NewRenderer env (fst listing)
    end in
  asListed (stateHostDeviceNetwork.NewStateHostDeviceNetwork env c sch manifestDir) /\
  asListed (stateSriovDp.NewStateSriovDp env c sch manifestDir).
Proof.
  intros listing asListed. subst asListed.
  unfold stateHostDeviceNetwork.NewStateHostDeviceNetwork, stateSriovDp.NewStateSriovDp.
  fold listing. destruct listing as [files [e|]]; cbn [notNil snd fst errors_Wrap].
  - by repeat split.
  - repeat split; try done; by eexists.
Qed.

(** ** Watch sources *)

Lemma hdn_watches_NetworkAttachmentDefinition (s : stateSkel) :
  stateHostDeviceNetwork.GetWatchSources s !! "NetworkAttachmentDefinition"
  = Some TypeNetworkAttachmentDefinition.
Proof. unfold stateHostDeviceNetwork.GetWatchSources. by rewrite lookup_insert_eq. Qed.

(** The entries of the two watch lists, whatever the state holds. *)
Lemma watch_sources_domains (s : stateSkel) :
  dom (stateHostDeviceNetwork.GetWatchSources s)
  = ({["HostDeviceNetwork"; "NetworkAttachmentDefinition"]} : gset string) /\
  dom (stateSriovDp.GetWatchSources s) = ({["DaemonSet"]} : gset string).
Proof.
  split.
  - unfold stateHostDeviceNetwork.GetWatchSources.
    rewrite !dom_insert_L, dom_empty_L. set_solver.
  - unfold stateSriovDp.GetWatchSources.
    rewrite !dom_insert_L, dom_empty_L. set_solver.
Qed.

(** X14. A rendered primary object whose kind is not among the watch sources
    of the HostDeviceNetwork state is never applied: [Sync] answers Error
    with a nil error, and the only call made is the one to the renderer. *)
Theorem hdn_unwatched_primary_is_refused (m : stateSkelMethods) (s : stateSkel)
    (cr : HostDeviceNetwork) (cat : option InfoCatalog) (w : World)
    (first : Unstructured) (rest : list Unstructured) :
  renderObjects (renderer s) (DataHostDevice (stateHostDeviceNetwork.renderData cr))
  = (first :: rest, None) ->
  GetKind first ∉ dom (stateHostDeviceNetwork.GetWatchSources s) ->
  stateHostDeviceNetwork.Sync m s (DynHostDeviceNetwork (Some cr)) cat w
  = (Returned (SyncStateError, None),
     record (CallRenderObjects (DataHostDevice (stateHostDeviceNetwork.renderData cr))) w).
Proof.
  intros Hrender Hunwatched.
  apply (hdn_Sync_refused_render m s cr cat w (first :: rest) Hrender).
  right. exists first, rest. split; [reflexivity|].
  intros Hkind. apply Hunwatched. rewrite Hkind.
  apply elem_of_dom. rewrite hdn_watches_NetworkAttachmentDefinition. by eexists.
Qed.

Lemma hdn_unwatched_primary_is_refused_witness :
  let s := skel accepting (rendering [daemonSet; netAttDef]) "state-host-device-network" in
  stateHostDeviceNetwork.Sync specSkel s
    (DynHostDeviceNetwork (Some hostDeviceNetwork)) None emptyWorld
  = (Returned (SyncStateError, None),
     record (CallRenderObjects
               (DataHostDevice (stateHostDeviceNetwork.renderData hostDeviceNetwork)))
       emptyWorld).
Proof.
  intros s.
  apply (hdn_unwatched_primary_is_refused specSkel s hostDeviceNetwork None emptyWorld
           daemonSet [netAttDef]).
  - reflexivity.
  - rewrite (proj1 (watch_sources_domains s)). vm_compute GetKind.
    intros H. apply elem_of_union in H as [H|H]; apply elem_of_singleton in H;
      discriminate H.
Defined.
